(** * Blogicum: the view, permission and query logic of [blog/views.py]

    A shallow embedding of the request handlers of the blog application.
    The persisted store is a record of tables (lists of rows, in storage
    order); a handler is a function of the store, the request and the URL
    keyword arguments, and returns the response together with the store
    it leaves behind.  Exceptions raised inside a handler ([Http404],
    [PermissionDenied], ...) travel in a small error monad and are turned
    into a status code at the request boundary. *)

From Stdlib Require Import List String Ascii Bool ZArith NArith Lia.
From Stdlib Require Import Permutation Sorted DecimalString.
Import ListNotations.

Local Open Scope bool_scope.
Local Open Scope N_scope.
Local Open Scope list_scope.

(* ===================================================================== *)
(** ** Data model *)
(* ===================================================================== *)

(** Modelled from the spec: [django.contrib.auth.models.User] comes from
    the framework; section 3 of the specification lists the attributes the
    application reads (unique username, names, email). *)
Module User.
Record t := {
  id : N;
  username : string;
  first_name : string;
  last_name : string;
  email : string
}.
End User.

(** Modelled from the spec: [blog/models.py] is not under src; a Category
    is a named grouping with a unique slug and an [is_published] flag. *)
Module Category.
Record t := {
  id : N;
  title : string;
  slug : string;
  is_published : bool
}.
End Category.

(** Modelled from the spec: [blog/models.py] is not under src; the fields
    are those of [PostForm.Meta.fields] in [blog/forms.py], the
    [is_published] flag and the author read by the views.  Foreign keys
    hold the primary key of the row they reference. *)
Module Post.
Record t := {
  id : N;
  title : string;
  text : string;
  pub_date : Z;
  is_published : bool;
  author : N;
  category : N;
  location : option N;
  image : option string
}.
End Post.

(** [migrations/0004]: [CreateModel(name='Comment', fields=[id, text,
    created_at, author, post])]. *)
Module Comment.
Record t := {
  id : N;
  text : string;
  created_at : Z;
  author : N;
  post : N
}.
End Comment.

(** The persisted store: one list of rows per table, in storage order. *)
Record DB := {
  users : list User.t;
  categories : list Category.t;
  posts : list Post.t;
  comments : list Comment.t
}.

(* ===================================================================== *)
(** ** Exceptions and the error monad *)
(* ===================================================================== *)

Inductive Exception :=
| Http404
| PermissionDenied
| DoesNotExist
| MultipleObjectsReturned.

Inductive result (A : Type) :=
| Ok (a : A)
| Raise (e : Exception).
Arguments Ok {A} a.
Arguments Raise {A} e.

Definition bind {A B} (r : result A) (k : A -> result B) : result B :=
  match r with
  | Ok a => k a
  | Raise e => Raise e
  end.

Declare Scope result_scope.
Delimit Scope result_scope with result.
Notation "x <- r ;; k" := (bind r (fun x => k))
  (at level 100, r at next level, right associativity) : result_scope.
Local Open Scope result_scope.

(* ===================================================================== *)
(** ** Requests and responses *)
(* ===================================================================== *)

(** [request.user]: the framework's [AnonymousUser] or a row of the user
    table. *)
Inductive Viewer :=
| AnonymousUser
| Authenticated (u : User.t).

Definition is_authenticated (v : Viewer) : bool :=
  match v with
  | AnonymousUser => false
  | Authenticated _ => true
  end.

(** [request.user == user].  [Model.__eq__] compares primary keys;
    [AnonymousUser] equals no row of the user table. *)
Definition user_is (v : Viewer) (pk : N) : bool :=
  match v with
  | AnonymousUser => false
  | Authenticated u => User.id u =? pk
  end.

Inductive Method := GET | POST.

Record HttpRequest := {
  user : Viewer;
  method : Method;
  path : string
}.

(** What a handler answers.  [C] is the type of the template context. *)
Inductive Response (C : Type) :=
| TemplateResponse (template_name : string) (context : C)
| HttpResponseRedirect (url : string)
| RedirectToLogin (next : string)
| HttpResponseNotFound
| HttpResponseForbidden
| HttpResponseServerError.
Arguments TemplateResponse {C} template_name context.
Arguments HttpResponseRedirect {C} url.
Arguments RedirectToLogin {C} next.
Arguments HttpResponseNotFound {C}.
Arguments HttpResponseForbidden {C}.
Arguments HttpResponseServerError {C}.

(** The request boundary: [handler404] answers [Http404], [handler403]
    answers [PermissionDenied], anything else reaches [handler500]
    ([blogicum/urls.py], [pages/views.py]). *)
Definition response_for_exception {C} (e : Exception) : Response C :=
  match e with
  | Http404 => HttpResponseNotFound
  | PermissionDenied => HttpResponseForbidden
  | DoesNotExist | MultipleObjectsReturned => HttpResponseServerError
  end.

Definition respond {C} (r : result (Response C)) : Response C :=
  match r with
  | Ok resp => resp
  | Raise e => response_for_exception e
  end.

Definition is_login_redirect {C} (r : Response C) : bool :=
  match r with
  | RedirectToLogin _ => true
  | _ => false
  end.

Definition status_code {C} (r : Response C) : N :=
  match r with
  | TemplateResponse _ _ => 200
  | HttpResponseRedirect _ | RedirectToLogin _ => 302
  | HttpResponseNotFound => 404
  | HttpResponseForbidden => 403
  | HttpResponseServerError => 500
  end.

(* ===================================================================== *)
(** ** Query helpers *)
(* ===================================================================== *)

(** [QuerySet.get]: exactly one row must match. *)
Definition get {A} (rows : list A) (cond : A -> bool) : result A :=
  match filter cond rows with
  | [] => Raise DoesNotExist
  | [x] => Ok x
  | _ :: _ :: _ => Raise MultipleObjectsReturned
  end.

(** [django.shortcuts.get_object_or_404]: [DoesNotExist] becomes
    [Http404]; any other exception passes through. *)
Definition get_object_or_404 {A} (rows : list A) (cond : A -> bool) : result A :=
  match get rows cond with
  | Raise DoesNotExist => Raise Http404
  | r => r
  end.

(** [SingleObjectMixin.get_object]: the row whose primary key is the URL
    keyword argument named by [pk_url_kwarg], or [Http404]. *)
Definition get_object {A} (pk_of : A -> N) (rows : list A) (pk : N) : result A :=
  get_object_or_404 rows (fun r => pk_of r =? pk).

(** [post.category]: the row the foreign key points to. *)
Definition Post_category (db : DB) (p : Post.t) : result Category.t :=
  get (categories db) (fun c => Category.id c =? Post.category p).

(** [Count("comments")] for one post. *)
Definition comment_count (db : DB) (p : Post.t) : nat :=
  List.length (filter (fun c => Comment.post c =? Post.id p) (comments db)).

(** A row of a listing: the post and its [comment_count] annotation. *)
Record AnnotatedPost := {
  post_of : Post.t;
  annotated_comment_count : nat
}.

Definition annotate (db : DB) (ps : list Post.t) : list AnnotatedPost :=
  map (fun p => {| post_of := p; annotated_comment_count := comment_count db p |}) ps.

(** [order_by("-pub_date")]: newest first; rows with equal dates keep
    their storage order. *)
Fixpoint insert_by_pub_date (r : AnnotatedPost) (l : list AnnotatedPost)
  : list AnnotatedPost :=
  match l with
  | [] => [r]
  | x :: l' =>
      if (Post.pub_date (post_of x) <=? Post.pub_date (post_of r))%Z
      then r :: x :: l'
      else x :: insert_by_pub_date r l'
  end.

Definition order_by_pub_date_desc (l : list AnnotatedPost) : list AnnotatedPost :=
  fold_right insert_by_pub_date [] l.

(** Newest first. *)
Definition newer_or_equal (a b : AnnotatedPost) : Prop :=
  (Post.pub_date (post_of b) <= Post.pub_date (post_of a))%Z.

(** The join [category__is_published=True]. *)
Definition category__is_published (db : DB) (p : Post.t) : bool :=
  existsb (fun c => (Category.id c =? Post.category p) && Category.is_published c)
          (categories db).

(** [Q(is_published=True) & Q(category__is_published=True)
     & Q(pub_date__lte=timezone.now())]. *)
Definition published_Q (db : DB) (now : Z) (p : Post.t) : bool :=
  Post.is_published p && category__is_published db p && (Post.pub_date p <=? now)%Z.

(** Modelled from the spec: section 4.1 states the visibility predicate as
    [post.is_published AND post.category.is_published AND
    post.pub_date <= now]; the category of a post is the row of the
    category table its foreign key names. *)
Definition is_visible_to_public (db : DB) (post : Post.t) (now : Z) : Prop :=
  Post.is_published post = true /\
  (exists c, In c (categories db) /\ Category.id c = Post.category post /\
             Category.is_published c = true) /\
  (Post.pub_date post <= now)%Z.

(** A listing shows a post when one of its rows carries it. *)
Definition appears_in (p : Post.t) (listing : list AnnotatedPost) : Prop :=
  In p (map post_of listing).

(** [AutoField]: a new row gets a key above every key in the table. *)
Definition next_id (ids : list N) : N := 1 + fold_right N.max 0 ids.

(* ===================================================================== *)
(** ** URL reversal *)
(* ===================================================================== *)

(** [str(n)] of a non-negative integer: its decimal digits. *)
Definition str (n : N) : string := NilEmpty.string_of_uint (N.to_uint n).

(** Modelled from the spec: [blog/urls.py] is not under src; section 6
    gives the paths [/], [/posts/{post_id}/] and [/profile/{username}/]
    of the routes the views reverse. *)
Module urls.
Definition index : string := "/".
Definition post_detail (post_id : N) : string :=
  ("/posts/" ++ str post_id ++ "/")%string.
Definition profile (username : string) : string :=
  ("/profile/" ++ username ++ "/")%string.
End urls.

(** The fragment of a URL: what follows its first [#], if any. *)
Fixpoint url_fragment (url : string) : option string :=
  match url with
  | EmptyString => None
  | String c rest => if Ascii.eqb c "#" then Some rest else url_fragment rest
  end.

(* ===================================================================== *)
(** ** Forms and access mixins *)
(* ===================================================================== *)

(** The outcome of [form.is_valid()] on the submitted data: the cleaned
    data of a valid form, or a form with errors. *)
Inductive Submission (A : Type) :=
| Valid (cleaned_data : A)
| Invalid.
Arguments Valid {A} cleaned_data.
Arguments Invalid {A}.

(** A form as a template receives it; [A] is the model of its instance. *)
Inductive Form (A : Type) :=
| Unbound (instance : option A)
| BoundWithErrors (instance : option A).
Arguments Unbound {A} instance.
Arguments BoundWithErrors {A} instance.

(** [PostForm.Meta.fields]. *)
Module PostForm.
Record t := {
  title : string;
  text : string;
  pub_date : Z;
  location : option N;
  category : N;
  image : option string
}.
End PostForm.

(** [UserProfileForm.Meta.fields]. *)
Module UserProfileForm.
Record t := {
  first_name : string;
  last_name : string;
  email : string
}.
End UserProfileForm.

(** [CommentForm.Meta.fields]. *)
Module CommentForm.
Record t := { text : string }.
End CommentForm.

(** A handled request: the response and the store left behind. *)
Definition Handled (C : Type) : Type := (Response C * DB)%type.

(** [AccessMixin.handle_no_permission]. *)
Definition handle_no_permission {C} (request : HttpRequest) : result (Response C) :=
  if is_authenticated (user request)
  then Raise PermissionDenied
  else Ok (RedirectToLogin (path request)).

(** [LoginRequiredMixin.dispatch]. *)
Definition LoginRequiredMixin_dispatch {C} (db : DB) (request : HttpRequest)
    (next : Handled C) : Handled C :=
  if is_authenticated (user request)
  then next
  else (respond (handle_no_permission request), db).

(** [UserPassesTestMixin.dispatch]. *)
Definition UserPassesTestMixin_dispatch {C} (db : DB) (request : HttpRequest)
    (test_func : result bool) (next : Handled C) : Handled C :=
  match test_func with
  | Raise e => (response_for_exception e, db)
  | Ok true => next
  | Ok false => (respond (handle_no_permission request), db)
  end.

(** Context of the form views: the form and the object it edits. *)
Record FormContext (A : Type) := {
  form_of : Form A;
  object_of : option A
}.
Arguments form_of {A} _.
Arguments object_of {A} _.

(* ===================================================================== *)
(** ** Row updates *)
(* ===================================================================== *)

(** [obj.save()] on an existing row: the row with that key is replaced. *)
Definition save {A} (pk_of : A -> N) (obj : A) (rows : list A) : list A :=
  map (fun r => if pk_of r =? pk_of obj then obj else r) rows.

(** [obj.delete()]: the row with that key goes. *)
Definition delete {A} (pk_of : A -> N) (pk : N) (rows : list A) : list A :=
  filter (fun r => negb (pk_of r =? pk)) rows.

Definition with_users (db : DB) (us : list User.t) : DB :=
  {| users := us; categories := categories db;
     posts := posts db; comments := comments db |}.

Definition with_posts (db : DB) (ps : list Post.t) : DB :=
  {| users := users db; categories := categories db;
     posts := ps; comments := comments db |}.

Definition with_comments (db : DB) (cs : list Comment.t) : DB :=
  {| users := users db; categories := categories db;
     posts := posts db; comments := cs |}.

(* ===================================================================== *)
(** ** Listing views *)
(* ===================================================================== *)

(** [ProfileView.get_queryset]; the first component is [self.profile]. *)
Definition ProfileView_get_queryset (db : DB) (request : HttpRequest)
    (username : string) (now : Z) : result (User.t * list AnnotatedPost) :=
  profile <- get_object_or_404 (users db)
               (fun u => String.eqb (User.username u) username) ;;
  let base_query := filter (fun p => Post.author p =? User.id profile) (posts db) in
  if user_is (user request) (User.id profile)
  then Ok (profile, order_by_pub_date_desc (annotate db base_query))
  else Ok (profile,
           order_by_pub_date_desc
             (annotate db (filter (published_Q db now) base_query))).

(** [PostListView.get_queryset]. *)
Definition PostListView_get_queryset (db : DB) (now : Z) : list AnnotatedPost :=
  order_by_pub_date_desc (annotate db (filter (published_Q db now) (posts db))).

(** [CategoryPostsView.get_queryset]; the first component is
    [self.category]. *)
Definition CategoryPostsView_get_queryset (db : DB) (category_slug : string)
    (now : Z) : result (Category.t * list AnnotatedPost) :=
  category <- get_object_or_404 (categories db)
                (fun c => String.eqb (Category.slug c) category_slug
                          && Category.is_published c) ;;
  Ok (category,
      order_by_pub_date_desc
        (annotate db
           (filter (fun p => (Post.category p =? Category.id category)
                             && published_Q db now p)
                   (posts db)))).

(** [paginate_by = 10] of the three listing views. *)
Definition paginate_by : nat := 10.

(** [Paginator.num_pages] with no orphans and an empty first page
    allowed. *)
Definition num_pages (count : nat) : nat :=
  Nat.div (Nat.max 1 count + (paginate_by - 1)) paginate_by.

(** [MultipleObjectMixin.paginate_queryset]: the rows of page [page],
    [Http404] when there is no such page. *)
Definition paginate_queryset {A} (queryset : list A) (page : nat) : result (list A) :=
  if (page <? 1)%nat || (num_pages (List.length queryset) <? page)%nat
  then Raise Http404
  else Ok (firstn paginate_by (skipn ((page - 1) * paginate_by) queryset)).

(** [PostListView] answering a GET for page [page]. *)
Definition PostListView_get (db : DB) (now : Z) (page : nat)
  : Response (list AnnotatedPost) :=
  respond (page_obj <- paginate_queryset (PostListView_get_queryset db now) page ;;
           Ok (TemplateResponse "blog/index.html" page_obj)).

(** A post is shown by the home listing when some page of it carries
    the post. *)
Definition on_home_listing (db : DB) (now : Z) (p : Post.t) : Prop :=
  exists page rows,
    PostListView_get db now page = TemplateResponse "blog/index.html" rows /\
    appears_in p rows.

Record CategoryContext := {
  category_of : Category.t;
  post_list : list AnnotatedPost
}.

(** [CategoryPostsView] answering a GET for page [page]. *)
Definition CategoryPostsView_get (db : DB) (category_slug : string) (now : Z)
    (page : nat) : Response CategoryContext :=
  respond (found <- CategoryPostsView_get_queryset db category_slug now ;;
           rows <- paginate_queryset (snd found) page ;;
           Ok (TemplateResponse "blog/category.html"
                 {| category_of := fst found; post_list := rows |})).

Record ProfileContext := {
  profile_of : User.t;
  page_obj : list AnnotatedPost
}.

(** [ProfileView] answering a GET for page [page]. *)
Definition ProfileView_get (db : DB) (request : HttpRequest) (username : string)
    (now : Z) (page : nat) : Response ProfileContext :=
  respond (found <- ProfileView_get_queryset db request username now ;;
           rows <- paginate_queryset (snd found) page ;;
           Ok (TemplateResponse "blog/profile.html"
                 {| profile_of := fst found; page_obj := rows |})).

(* ===================================================================== *)
(** ** Post detail *)
(* ===================================================================== *)

(** [PostDetailView.get_object].  The three tests of the [or] run left to
    right and stop at the first that holds. *)
Definition PostDetailView_get_object (db : DB) (request : HttpRequest)
    (post_id : N) (now : Z) : result Post.t :=
  obj <- get_object Post.id (posts db) post_id ;;
  hidden <- (if negb (Post.is_published obj) then Ok true
             else category <- Post_category db obj ;;
                  Ok (negb (Category.is_published category)
                      || (Post.pub_date obj >? now)%Z)) ;;
  if hidden
  then if negb (user_is (user request) (Post.author obj))
       then Raise Http404
       else Ok obj
  else Ok obj.

(** [select_related("author")]: each row joined with the user row its
    foreign key names. *)
Definition select_related_author (db : DB) (cs : list Comment.t)
  : list (Comment.t * User.t) :=
  flat_map (fun c =>
              map (fun u => (c, u))
                  (filter (fun u => User.id u =? Comment.author c) (users db)))
           cs.

(** Modelled from the spec: the default ordering of [Comment] is declared
    by [Comment.Meta] in [blog/models.py], which is not under src;
    section 4.3 gives the comments of a post ordered by creation time,
    ascending.  Rows with equal times keep their storage order. *)
Fixpoint insert_by_created_at (c : Comment.t) (l : list Comment.t)
  : list Comment.t :=
  match l with
  | [] => [c]
  | x :: l' =>
      if (Comment.created_at c <=? Comment.created_at x)%Z
      then c :: x :: l'
      else x :: insert_by_created_at c l'
  end.

(** Modelled from the spec: the ordering [Comment.Meta] of
    [blog/models.py], not under src, gives a queryset of comments
    (section 4.3: by creation time, ascending). *)
Definition Comment_Meta_ordering (cs : list Comment.t) : list Comment.t :=
  fold_right insert_by_created_at [] cs.

(** [post.comments]: the rows of the comment table that reference the
    post, in the default ordering of [Comment]. *)
Definition Post_comments (db : DB) (p : Post.t) : list Comment.t :=
  Comment_Meta_ordering
    (filter (fun c => Comment.post c =? Post.id p) (comments db)).

(** Rows in ascending order of creation time. *)
Definition created_at_ascending (cs : list Comment.t) : Prop :=
  StronglySorted (fun a b => (Comment.created_at a <= Comment.created_at b)%Z) cs.

(** The foreign-key constraint of [Comment.author]: the author of every
    stored comment is exactly one row of the user table. *)
Definition authors_resolve (db : DB) : Prop :=
  forall c, In c (comments db) ->
  exists u, filter (fun u => User.id u =? Comment.author c) (users db) = [u].

Record PostDetailContext := {
  detail_object : Post.t;
  detail_form : Form Comment.t;
  detail_comments : list (Comment.t * User.t)
}.

(** [PostDetailView.get_context_data]. *)
Definition PostDetailView_get_context_data (db : DB) (object : Post.t)
  : PostDetailContext :=
  {| detail_object := object;
     detail_form := Unbound None;
     detail_comments := select_related_author db (Post_comments db object) |}.

(** [PostDetailView] answering a GET. *)
Definition PostDetailView_get (db : DB) (request : HttpRequest) (post_id : N)
    (now : Z) : Response PostDetailContext :=
  respond (obj <- PostDetailView_get_object db request post_id now ;;
           Ok (TemplateResponse "blog/detail.html"
                 (PostDetailView_get_context_data db obj))).

(* ===================================================================== *)
(** ** Post create, edit, delete *)
(* ===================================================================== *)

Definition PostContext : Type := FormContext Post.t.

Definition post_template (f : Form Post.t) (o : option Post.t)
  : Response PostContext :=
  TemplateResponse "blog/create.html" {| form_of := f; object_of := o |}.

(** The fields a [PostForm] writes into a post. *)
Definition PostForm_apply (f : PostForm.t) (p : Post.t) : Post.t :=
  {| Post.id := Post.id p;
     Post.title := PostForm.title f;
     Post.text := PostForm.text f;
     Post.pub_date := PostForm.pub_date f;
     Post.is_published := Post.is_published p;
     Post.author := Post.author p;
     Post.category := PostForm.category f;
     Post.location := PostForm.location f;
     Post.image := PostForm.image f |}.

Section PostCreate.
(** The default of [Post.is_published], declared in [blog/models.py]. *)
Variable is_published_default : bool.

(** [PostCreateView]: [LoginRequiredMixin], then [CreateView] with
    [form_valid] setting the author. *)
Definition PostCreateView_dispatch (db : DB) (request : HttpRequest)
    (data : Submission PostForm.t) : Handled PostContext :=
  LoginRequiredMixin_dispatch db request
    match method request, user request with
    | GET, _ => (post_template (Unbound None) None, db)
    | POST, AnonymousUser => (HttpResponseServerError, db)
    | POST, Authenticated u =>
        match data with
        | Invalid => (post_template (BoundWithErrors None) None, db)
        | Valid f =>
            let blank :=
              {| Post.id := next_id (map Post.id (posts db));
                 Post.title := ""; Post.text := ""; Post.pub_date := 0%Z;
                 Post.is_published := is_published_default;
                 Post.author := User.id u;
                 Post.category := 0; Post.location := None;
                 Post.image := None |} in
            (HttpResponseRedirect (urls.profile (User.username u)),
             with_posts db (posts db ++ [PostForm_apply f blank]))
        end
    end.
End PostCreate.

(** [PostEditView.get_object]: [None] when the viewer is not the author. *)
Definition PostEditView_get_object (db : DB) (request : HttpRequest)
    (post_id : N) : result (option Post.t) :=
  obj <- get_object Post.id (posts db) post_id ;;
  if negb (user_is (user request) (Post.author obj))
  then Ok None
  else Ok (Some obj).

(** [PostEditView.dispatch]: the object is loaded before the access
    mixin runs. *)
Definition PostEditView_dispatch (db : DB) (request : HttpRequest)
    (post_id : N) (data : Submission PostForm.t) : Handled PostContext :=
  match PostEditView_get_object db request post_id with
  | Raise e => (response_for_exception e, db)
  | Ok None => (HttpResponseRedirect (urls.post_detail post_id), db)
  | Ok (Some obj) =>
      LoginRequiredMixin_dispatch db request
        match method request with
        | GET => (post_template (Unbound (Some obj)) (Some obj), db)
        | POST =>
            match data with
            | Invalid => (post_template (BoundWithErrors (Some obj)) (Some obj), db)
            | Valid f =>
                let obj' := PostForm_apply f obj in
                (HttpResponseRedirect (urls.post_detail (Post.id obj')),
                 with_posts db (save Post.id obj' (posts db)))
            end
        end
  end.

(** [PostDeleteView.test_func]. *)
Definition PostDeleteView_test_func (db : DB) (request : HttpRequest)
    (post_id : N) : result bool :=
  post <- get_object Post.id (posts db) post_id ;;
  Ok (user_is (user request) (Post.author post)).

(** [PostDeleteView]: [LoginRequiredMixin], [UserPassesTestMixin], then
    [DeleteView]; the comments of a deleted post go with it
    ([on_delete=CASCADE]). *)
Definition PostDeleteView_dispatch (db : DB) (request : HttpRequest)
    (post_id : N) : Handled Post.t :=
  LoginRequiredMixin_dispatch db request
    (UserPassesTestMixin_dispatch db request
       (PostDeleteView_test_func db request post_id)
       match get_object Post.id (posts db) post_id with
       | Raise e => (response_for_exception e, db)
       | Ok obj =>
           match method request with
           | GET => (TemplateResponse "blog/create.html" obj, db)
           | POST =>
               (HttpResponseRedirect urls.index,
                {| users := users db; categories := categories db;
                   posts := delete Post.id (Post.id obj) (posts db);
                   comments := filter (fun c => negb (Comment.post c =? Post.id obj))
                                      (comments db) |})
           end
       end).

(* ===================================================================== *)
(** ** Comment create, edit, delete *)
(* ===================================================================== *)

Definition CommentContext : Type := FormContext Comment.t.

Definition comment_template (name : string) (f : Form Comment.t)
    (o : option Comment.t) : Response CommentContext :=
  TemplateResponse name {| form_of := f; object_of := o |}.

(** [CommentCreateView.get_success_url]. *)
Definition CommentCreateView_get_success_url (post_id : N) (object : Comment.t)
  : string :=
  (urls.post_detail post_id ++ "#comment" ++ str (Comment.id object))%string.

(** [CommentCreateView.form_valid]: the post is looked up, the comment
    gets its post and author and is saved; [created_at] is the time of
    saving ([auto_now_add]). *)
Definition CommentCreateView_form_valid (db : DB) (u : User.t) (post_id : N)
    (f : CommentForm.t) (now : Z) : result (Response CommentContext * DB) :=
  post <- get_object_or_404 (posts db) (fun p => Post.id p =? post_id) ;;
  let object :=
    {| Comment.id := next_id (map Comment.id (comments db));
       Comment.text := CommentForm.text f;
       Comment.created_at := now;
       Comment.author := User.id u;
       Comment.post := Post.id post |} in
  Ok (HttpResponseRedirect (CommentCreateView_get_success_url post_id object),
      with_comments db (comments db ++ [object])).

(** [CommentCreateView]: [LoginRequiredMixin], then [CreateView]. *)
Definition CommentCreateView_dispatch (db : DB) (request : HttpRequest)
    (post_id : N) (data : Submission CommentForm.t) (now : Z)
  : Handled CommentContext :=
  LoginRequiredMixin_dispatch db request
    match method request, user request with
    | GET, _ => (comment_template "includes/comments.html" (Unbound None) None, db)
    | POST, AnonymousUser => (HttpResponseServerError, db)
    | POST, Authenticated u =>
        match data with
        | Invalid =>
            (comment_template "includes/comments.html" (BoundWithErrors None) None, db)
        | Valid f =>
            match CommentCreateView_form_valid db u post_id f now with
            | Ok handled => handled
            | Raise e => (response_for_exception e, db)
            end
        end
    end.

(** [CommentEditView.test_func] and [CommentDeleteView.test_func]: the
    comment is the one named by [comment_id]. *)
Definition Comment_test_func (db : DB) (request : HttpRequest)
    (comment_id : N) : result bool :=
  comment <- get_object Comment.id (comments db) comment_id ;;
  Ok (user_is (user request) (Comment.author comment)).

(** [CommentEditView.get_success_url].  The store enforces the foreign
    key, so [object.post.id] is the key the comment holds. *)
Definition CommentEditView_get_success_url (object : Comment.t) : string :=
  (urls.post_detail (Comment.post object)
   ++ "#comment_" ++ str (Comment.id object))%string.

(** [CommentEditView]: [LoginRequiredMixin], [UserPassesTestMixin], then
    [UpdateView].  [post_id] is the other keyword argument of the route. *)
Definition CommentEditView_dispatch (db : DB) (request : HttpRequest)
    (post_id comment_id : N) (data : Submission CommentForm.t)
  : Handled CommentContext :=
  LoginRequiredMixin_dispatch db request
    (UserPassesTestMixin_dispatch db request
       (Comment_test_func db request comment_id)
       match get_object Comment.id (comments db) comment_id with
       | Raise e => (response_for_exception e, db)
       | Ok obj =>
           match method request with
           | GET => (comment_template "blog/comment.html"
                       (Unbound (Some obj)) (Some obj), db)
           | POST =>
               match data with
               | Invalid => (comment_template "blog/comment.html"
                               (BoundWithErrors (Some obj)) (Some obj), db)
               | Valid f =>
                   let obj' :=
                     {| Comment.id := Comment.id obj;
                        Comment.text := CommentForm.text f;
                        Comment.created_at := Comment.created_at obj;
                        Comment.author := Comment.author obj;
                        Comment.post := Comment.post obj |} in
                   (HttpResponseRedirect (CommentEditView_get_success_url obj'),
                    with_comments db (save Comment.id obj' (comments db)))
               end
           end
       end).

(** [CommentDeleteView.get_success_url]. *)
Definition CommentDeleteView_get_success_url (post_id : N) : string :=
  urls.post_detail post_id.

(** [CommentDeleteView]: [LoginRequiredMixin], [UserPassesTestMixin], then
    [DeleteView]. *)
Definition CommentDeleteView_dispatch (db : DB) (request : HttpRequest)
    (post_id comment_id : N) : Handled Comment.t :=
  LoginRequiredMixin_dispatch db request
    (UserPassesTestMixin_dispatch db request
       (Comment_test_func db request comment_id)
       match get_object Comment.id (comments db) comment_id with
       | Raise e => (response_for_exception e, db)
       | Ok obj =>
           match method request with
           | GET => (TemplateResponse "blog/comment.html" obj, db)
           | POST =>
               (HttpResponseRedirect (CommentDeleteView_get_success_url post_id),
                with_comments db (delete Comment.id (Comment.id obj) (comments db)))
           end
       end).

(* ===================================================================== *)
(** ** Profile edit *)
(* ===================================================================== *)

Definition UserProfileForm_apply (f : UserProfileForm.t) (u : User.t) : User.t :=
  {| User.id := User.id u;
     User.username := User.username u;
     User.first_name := UserProfileForm.first_name f;
     User.last_name := UserProfileForm.last_name f;
     User.email := UserProfileForm.email f |}.

(** [ProfileEditView]: [LoginRequiredMixin], then [UpdateView] on
    [request.user]. *)
Definition ProfileEditView_dispatch (db : DB) (request : HttpRequest)
    (data : Submission UserProfileForm.t) : Handled (FormContext User.t) :=
  LoginRequiredMixin_dispatch db request
    match user request with
    | AnonymousUser => (HttpResponseServerError, db)
    | Authenticated u =>
        match method request with
        | GET => (TemplateResponse "blog/user.html"
                    {| form_of := Unbound (Some u); object_of := Some u |}, db)
        | POST =>
            match data with
            | Invalid => (TemplateResponse "blog/user.html"
                            {| form_of := BoundWithErrors (Some u);
                               object_of := Some u |}, db)
            | Valid f =>
                let u' := UserProfileForm_apply f u in
                (HttpResponseRedirect (urls.profile (User.username u)),
                 with_users db (save User.id u' (users db)))
            end
        end
    end.

(** The routes behind [LoginRequiredMixin], with the keyword arguments
    and the submitted form of each. *)
Inductive LoginRequiredRoute :=
| post_create (data : Submission PostForm.t)
| post_edit (post_id : N) (data : Submission PostForm.t)
| post_delete (post_id : N)
| comment_create (post_id : N) (data : Submission CommentForm.t)
| comment_edit (post_id comment_id : N) (data : Submission CommentForm.t)
| comment_delete (post_id comment_id : N)
| profile_edit (data : Submission UserProfileForm.t).

(** A response without its template context. *)
Definition forget {C} (r : Response C) : Response unit :=
  match r with
  | TemplateResponse name _ => TemplateResponse name tt
  | HttpResponseRedirect url => HttpResponseRedirect url
  | RedirectToLogin next => RedirectToLogin next
  | HttpResponseNotFound => HttpResponseNotFound
  | HttpResponseForbidden => HttpResponseForbidden
  | HttpResponseServerError => HttpResponseServerError
  end.

(** The URL resolver on the login-required routes. *)
Definition resolve (is_published_default : bool) (db : DB) (now : Z)
    (request : HttpRequest) (route : LoginRequiredRoute) : Response unit * DB :=
  let strip {C} (h : Handled C) := (forget (fst h), snd h) in
  match route with
  | post_create data =>
      strip (PostCreateView_dispatch is_published_default db request data)
  | post_edit post_id data => strip (PostEditView_dispatch db request post_id data)
  | post_delete post_id => strip (PostDeleteView_dispatch db request post_id)
  | comment_create post_id data =>
      strip (CommentCreateView_dispatch db request post_id data now)
  | comment_edit post_id comment_id data =>
      strip (CommentEditView_dispatch db request post_id comment_id data)
  | comment_delete post_id comment_id =>
      strip (CommentDeleteView_dispatch db request post_id comment_id)
  | profile_edit data => strip (ProfileEditView_dispatch db request data)
  end.

(* ===================================================================== *)
(** ** Registration, static pages and error handlers *)
(* ===================================================================== *)

(** [UserCreationForm]: of its fields the store keeps the username; no
    view reads the password. *)
Module UserCreationForm.
Record t := { username : string }.
End UserCreationForm.

(** The [registration] route of [blogicum/urls.py]: a [CreateView] on
    [UserCreationForm] with no access mixin; [success_url] is the home
    page. *)
Definition registration_dispatch (db : DB) (request : HttpRequest)
    (data : Submission UserCreationForm.t) : Handled (FormContext User.t) :=
  match method request with
  | GET => (TemplateResponse "registration/registration_form.html"
              {| form_of := Unbound None; object_of := None |}, db)
  | POST =>
      match data with
      | Invalid => (TemplateResponse "registration/registration_form.html"
                      {| form_of := BoundWithErrors None; object_of := None |}, db)
      | Valid f =>
          (HttpResponseRedirect urls.index,
           with_users db
             (users db ++
              [{| User.id := next_id (map User.id (users db));
                  User.username := UserCreationForm.username f;
                  User.first_name := ""; User.last_name := "";
                  User.email := "" |}]))
      end
  end.

(** [pages/views.py]. *)
Module pages.
(** What [render(request, template, status=...)] answers. *)
Record Rendered := { template : string; status : N }.

Definition AboutView : Rendered :=
  {| template := "pages/about.html"; status := 200 |}.

Definition RulesView : Rendered :=
  {| template := "pages/rules.html"; status := 200 |}.

Definition csrf_failure (request : HttpRequest) (exception : option Exception)
    (reason : string) : Rendered :=
  {| template := "pages/403csrf.html"; status := 403 |}.

Definition handler404 (request : HttpRequest) (exception : option Exception)
  : Rendered :=
  {| template := "pages/404.html"; status := 404 |}.

Definition handler500 (request : HttpRequest) : Rendered :=
  {| template := "pages/500.html"; status := 500 |}.
End pages.

(** The handlers [blogicum/urls.py] names: [handler404], [handler500],
    and [handler403], which is [pages.views.csrf_failure]. *)
Definition handle_uncaught (request : HttpRequest) (e : Exception) : pages.Rendered :=
  match e with
  | Http404 => pages.handler404 request (Some e)
  | PermissionDenied => pages.csrf_failure request (Some e) ""
  | DoesNotExist | MultipleObjectsReturned => pages.handler500 request
  end.

(** The page shown for an error response: the one its handler renders;
    other responses have none. *)
Definition error_page {C} (request : HttpRequest) (r : Response C)
  : option pages.Rendered :=
  match r with
  | HttpResponseNotFound => Some (handle_uncaught request Http404)
  | HttpResponseForbidden => Some (handle_uncaught request PermissionDenied)
  | HttpResponseServerError => Some (pages.handler500 request)
  | TemplateResponse _ _ | HttpResponseRedirect _ | RedirectToLogin _ => None
  end.

(* ===================================================================== *)
(** ** Store invariants and route attributes *)
(* ===================================================================== *)

(** The foreign key of [Comment.post]: every comment is on a stored
    post. *)
Definition comments_reference_posts (db : DB) : Prop :=
  forall c, In c (comments db) ->
  exists p, In p (posts db) /\ Post.id p = Comment.post c.

(** Primary keys are unique in every table a view writes to. *)
Definition unique_keys (db : DB) : Prop :=
  NoDup (map User.id (users db)) /\
  NoDup (map Post.id (posts db)) /\
  NoDup (map Comment.id (comments db)).

(** The route carries a form that did not validate. *)
Definition submission_invalid (route : LoginRequiredRoute) : bool :=
  match route with
  | post_create Invalid
  | post_edit _ Invalid
  | comment_create _ Invalid
  | comment_edit _ _ Invalid
  | profile_edit Invalid => true
  | _ => false
  end.

(** The author of the post or comment a route edits or deletes. *)
Definition owner_of (db : DB) (route : LoginRequiredRoute) : option N :=
  match route with
  | post_edit post_id _ | post_delete post_id =>
      match get_object Post.id (posts db) post_id with
      | Ok p => Some (Post.author p)
      | Raise _ => None
      end
  | comment_edit _ comment_id _ | comment_delete _ comment_id =>
      match get_object Comment.id (comments db) comment_id with
      | Ok c => Some (Comment.author c)
      | Raise _ => None
      end
  | post_create _ | comment_create _ _ | profile_edit _ => None
  end.

(** The routes that edit or delete an existing post or comment. *)
Definition edits_existing (route : LoginRequiredRoute) : bool :=
  match route with
  | post_edit _ _ | post_delete _ | comment_edit _ _ _ | comment_delete _ _ => true
  | post_create _ | comment_create _ _ | profile_edit _ => false
  end.

(** The writes the login-required routes make to the store: none, a new
    post under a fresh key, a saved post, a deleted post with its
    comments, a new comment on a stored post under a fresh key, a saved
    comment, a deleted comment, a saved user. *)
Inductive Write (db : DB) : DB -> Prop :=
| write_nothing : Write db db
| write_new_post p :
    Post.id p = next_id (map Post.id (posts db)) ->
    Write db (with_posts db (posts db ++ [p]))
| write_post P f :
    In P (posts db) ->
    Write db (with_posts db (save Post.id (PostForm_apply f P) (posts db)))
| write_delete_post P :
    Write db {| users := users db; categories := categories db;
                posts := delete Post.id (Post.id P) (posts db);
                comments := filter (fun c => negb (Comment.post c =? Post.id P))
                                   (comments db) |}
| write_new_comment c P :
    In P (posts db) ->
    Comment.post c = Post.id P ->
    Comment.id c = next_id (map Comment.id (comments db)) ->
    Write db (with_comments db (comments db ++ [c]))
| write_comment C C' :
    In C (comments db) ->
    Comment.id C' = Comment.id C ->
    Comment.post C' = Comment.post C ->
    Write db (with_comments db (save Comment.id C' (comments db)))
| write_delete_comment k :
    Write db (with_comments db (delete Comment.id k (comments db)))
| write_user u' :
    Write db (with_users db (save User.id u' (users db))).

(** A run of requests to the login-required routes, each with the time
    at which it is served, one after the other. *)
Definition serve_all (is_published_default : bool) (db : DB)
    (requests : list (Z * HttpRequest * LoginRequiredRoute)) : DB :=
  fold_left (fun db r =>
               snd (resolve is_published_default db (fst (fst r)) (snd (fst r)) (snd r)))
            requests db.

(* ===================================================================== *)
(** ** A small store *)
(* ===================================================================== *)

(** Two users, a published and an unpublished category, and four posts:
    a public one, a draft, a post dated in the future and a post of the
    unpublished category.  Time is counted in seconds; [now] is 100. *)
Module Fixture.
Definition alice : User.t :=
  {| User.id := 1; User.username := "alice"; User.first_name := "Alice";
     User.last_name := "A"; User.email := "alice@example.org" |}.
Definition bob : User.t :=
  {| User.id := 2; User.username := "bob"; User.first_name := "Bob";
     User.last_name := "B"; User.email := "bob@example.org" |}.

Definition travel : Category.t :=
  {| Category.id := 1; Category.title := "Travel"; Category.slug := "travel";
     Category.is_published := true |}.
Definition secret : Category.t :=
  {| Category.id := 2; Category.title := "Secret"; Category.slug := "secret";
     Category.is_published := false |}.

Definition mk_post (id : N) (pub_date : Z) (is_published : bool)
    (author category : N) : Post.t :=
  {| Post.id := id; Post.title := "title"; Post.text := "text";
     Post.pub_date := pub_date; Post.is_published := is_published;
     Post.author := author; Post.category := category;
     Post.location := None; Post.image := None |}.

Definition public_post : Post.t := mk_post 1 50 true 1 1.
Definition draft : Post.t := mk_post 2 60 false 1 1.
Definition future_post : Post.t := mk_post 3 500 true 1 1.
Definition secret_post : Post.t := mk_post 4 70 true 2 2.

Definition first_comment : Comment.t :=
  {| Comment.id := 1; Comment.text := "first"; Comment.created_at := 80;
     Comment.author := 2; Comment.post := 1 |}.
Definition second_comment : Comment.t :=
  {| Comment.id := 2; Comment.text := "second"; Comment.created_at := 90;
     Comment.author := 1; Comment.post := 1 |}.

Definition db : DB :=
  {| users := [alice; bob];
     categories := [travel; secret];
     posts := [public_post; draft; future_post; secret_post];
     comments := [first_comment; second_comment] |}.

Definition now : Z := 100.

Definition request (v : Viewer) (m : Method) (path : string) : HttpRequest :=
  {| user := v; method := m; path := path |}.

(** The store after two comments on post 1, the first saved with
    creation time 20, the second with creation time 10. *)
Definition after_two_comments : DB :=
  let commenting := request (Authenticated bob) POST "/posts/1/comment/" in
  let db1 := snd (CommentCreateView_dispatch (with_comments db []) commenting 1
                    (Valid {| CommentForm.text := "early" |}) 20) in
  snd (CommentCreateView_dispatch db1 commenting 1
         (Valid {| CommentForm.text := "late" |}) 10).
End Fixture.

(* ===================================================================== *)
(** ** Facts about the query helpers *)
(* ===================================================================== *)

Section QueryFacts.
Context {A : Type}.
Implicit Types (rows : list A) (cond : A -> bool).

Lemma get_Ok_filter rows cond x :
  get rows cond = Ok x <-> filter cond rows = [x].
Proof.
  unfold get. destruct (filter cond rows) as [|y [|z l]]; split; intro H;
    try discriminate; congruence.
Qed.

Lemma get_object_or_404_Ok rows cond x :
  get_object_or_404 rows cond = Ok x <-> filter cond rows = [x].
Proof.
  unfold get_object_or_404. rewrite <- get_Ok_filter.
  destruct (get rows cond) as [y|[]]; split; intro H; try discriminate; congruence.
Qed.

Lemma filter_singleton_In rows cond x :
  filter cond rows = [x] -> In x rows /\ cond x = true.
Proof.
  intro H. apply filter_In. rewrite H. now left.
Qed.

Lemma filter_singleton_only rows cond x y :
  filter cond rows = [x] -> In y rows -> cond y = true -> y = x.
Proof.
  intros H Hin Hc.
  assert (Hy : In y (filter cond rows)) by (apply filter_In; auto).
  rewrite H in Hy. destruct Hy as [->|[]]. reflexivity.
Qed.

(** A row found by primary key carries that key. *)
Lemma get_object_pk (pk_of : A -> N) rows pk x :
  get_object pk_of rows pk = Ok x -> In x rows /\ pk_of x = pk.
Proof.
  unfold get_object. rewrite get_object_or_404_Ok. intro H.
  apply filter_singleton_In in H. destruct H as [Hin Hpk].
  split; [assumption | now apply N.eqb_eq].
Qed.

Lemma filter_none rows cond :
  (forall y, In y rows -> cond y = false) -> filter cond rows = [].
Proof.
  induction rows as [|r rows IH]; intro H; [reflexivity|].
  simpl. rewrite (H r) by now left. apply IH. intros y Hy. apply H. now right.
Qed.

(** Under a uniqueness constraint on [key], the condition [key = k],
    possibly with a further test, selects the row asked for and no
    other. *)
Lemma filter_unique_key {K} (key : A -> K) (eqb : K -> K -> bool) cond rows x :
  (forall a b, eqb a b = true <-> a = b) ->
  NoDup (map key rows) -> In x rows -> cond x = true ->
  filter (fun y => eqb (key y) (key x) && cond y) rows = [x].
Proof.
  intros Heqb. induction rows as [|r rows IH]; intros Hnd Hin Hc; [destruct Hin|].
  simpl in Hnd. inversion Hnd as [|? ? Hnotin Hnd']; subst.
  assert (Hrest : forall y, In y rows -> key y <> key r).
  { intros y Hy Hk. apply Hnotin. rewrite <- Hk. now apply in_map. }
  simpl. destruct Hin as [->|Hin].
  - assert (He : eqb (key x) (key x) = true) by now apply Heqb.
    rewrite He, Hc. simpl. f_equal.
    apply filter_none. intros y Hy.
    destruct (eqb (key y) (key x)) eqn:E; [|reflexivity].
    apply Heqb in E. now apply Hrest in Hy.
  - destruct (eqb (key r) (key x)) eqn:E.
    + apply Heqb in E. apply Hrest in Hin. now symmetry in E.
    + simpl. now apply IH.
Qed.
End QueryFacts.

(* ===================================================================== *)
(** ** Facts about listings *)
(* ===================================================================== *)

Lemma insert_by_pub_date_perm r l :
  Permutation (insert_by_pub_date r l) (r :: l).
Proof.
  induction l as [|x l IH]; simpl; [reflexivity|].
  destruct (Post.pub_date (post_of x) <=? Post.pub_date (post_of r))%Z.
  - reflexivity.
  - rewrite IH. apply perm_swap.
Qed.

Lemma order_by_pub_date_desc_perm l :
  Permutation (order_by_pub_date_desc l) l.
Proof.
  induction l as [|r l IH]; simpl; [reflexivity|].
  rewrite insert_by_pub_date_perm. now constructor.
Qed.

Lemma insert_by_pub_date_sorted r l :
  Sorted newer_or_equal l -> Sorted newer_or_equal (insert_by_pub_date r l).
Proof.
  induction l as [|x l IH]; intro Hs; simpl.
  - repeat constructor.
  - destruct (Post.pub_date (post_of x) <=? Post.pub_date (post_of r))%Z eqn:E.
    + constructor; [assumption|]. constructor. unfold newer_or_equal.
      now apply Z.leb_le.
    + apply Z.leb_gt in E. inversion Hs as [|? ? Hs' Hhd]; subst.
      constructor; [now apply IH|].
      destruct l as [|y l]; simpl.
      * constructor. unfold newer_or_equal. lia.
      * destruct (Post.pub_date (post_of y) <=? Post.pub_date (post_of r))%Z.
        -- constructor. unfold newer_or_equal. lia.
        -- inversion Hhd; subst. now constructor.
Qed.

Lemma order_by_pub_date_desc_sorted l :
  Sorted newer_or_equal (order_by_pub_date_desc l).
Proof.
  induction l as [|r l IH]; simpl; [constructor|].
  now apply insert_by_pub_date_sorted.
Qed.

Lemma map_post_of_annotate db ps : map post_of (annotate db ps) = ps.
Proof.
  unfold annotate. rewrite map_map. simpl. apply map_id.
Qed.

(** A post is in an ordered, annotated queryset iff it is in the
    queryset. *)
Lemma appears_in_ordered db ps p :
  appears_in p (order_by_pub_date_desc (annotate db ps)) <-> In p ps.
Proof.
  unfold appears_in.
  assert (Hperm : Permutation (map post_of (order_by_pub_date_desc (annotate db ps))) ps).
  { rewrite (Permutation_map post_of (order_by_pub_date_desc_perm _)).
    now rewrite map_post_of_annotate. }
  split; intro H.
  - now apply (Permutation_in _ Hperm).
  - now apply (Permutation_in _ (Permutation_sym Hperm)).
Qed.

(** Every row of a listing carries the number of comments of its post. *)
Lemma annotation_is_comment_count db ps r :
  In r (order_by_pub_date_desc (annotate db ps)) ->
  annotated_comment_count r = comment_count db (post_of r).
Proof.
  intro H. apply (Permutation_in _ (order_by_pub_date_desc_perm _)) in H.
  unfold annotate in H. apply in_map_iff in H. destruct H as [p [<- _]].
  reflexivity.
Qed.

Lemma category__is_published_spec db p :
  category__is_published db p = true <->
  exists c, In c (categories db) /\ Category.id c = Post.category p /\
            Category.is_published c = true.
Proof.
  unfold category__is_published. rewrite existsb_exists.
  split; intros [c [Hin H]]; exists c; split; try assumption.
  - apply andb_true_iff in H. destruct H as [Hid Hp].
    apply N.eqb_eq in Hid. now split.
  - destruct H as [Hid Hp]. apply andb_true_iff. split; [now apply N.eqb_eq|assumption].
Qed.

(** The filter of the listings is the visibility predicate of the
    specification. *)
Lemma published_Q_spec db now p :
  published_Q db now p = true <-> is_visible_to_public db p now.
Proof.
  unfold published_Q, is_visible_to_public.
  rewrite !andb_true_iff, category__is_published_spec, Z.leb_le. tauto.
Qed.

Lemma published_Q_false db now p :
  published_Q db now p = false <-> ~ is_visible_to_public db p now.
Proof.
  rewrite <- published_Q_spec. destruct (published_Q db now p); split; intro H;
    try discriminate; try reflexivity.
  exfalso. now apply H.
Qed.

(** When the category of a post resolves, the join of the listings reads
    the flag of that category. *)
Lemma category__is_published_resolved db p c :
  Post_category db p = Ok c ->
  category__is_published db p = Category.is_published c.
Proof.
  unfold Post_category. rewrite get_Ok_filter. intro Hf.
  destruct (filter_singleton_In _ _ _ Hf) as [Hin Hid].
  destruct (Category.is_published c) eqn:Hp.
  - apply category__is_published_spec. exists c. apply N.eqb_eq in Hid. auto.
  - destruct (category__is_published db p) eqn:E; [|reflexivity].
    apply category__is_published_spec in E. destruct E as [c' [Hin' [Hid' Hp']]].
    assert (c' = c).
    { apply (filter_singleton_only _ _ _ _ Hf Hin'). now apply N.eqb_eq. }
    subst c'. congruence.
Qed.

(** Every row of a queryset is on one of its pages, and a page holds
    rows of the queryset only. *)
Lemma paginate_queryset_covers {A} (queryset : list A) (x : A) :
  In x queryset <->
  exists page rows, paginate_queryset queryset page = Ok rows /\ In x rows.
Proof.
  unfold paginate_queryset, num_pages, paginate_by. split.
  - intro Hin. apply In_nth_error in Hin. destruct Hin as [i Hi].
    assert (Hlt : (i < List.length queryset)%nat).
    { apply nth_error_Some. congruence. }
    exists (S (i / 10)%nat). eexists. split.
    + assert (Hpages : (S (i / 10) <= (Nat.max 1 (List.length queryset) + (10 - 1)) / 10)%nat).
      { replace (S (i / 10))%nat with ((i + 1 * 10) / 10)%nat
          by (rewrite Nat.div_add by discriminate; lia).
        apply Nat.Div0.div_le_mono. lia. }
      apply Nat.ltb_ge in Hpages. rewrite Hpages. reflexivity.
    + apply (nth_error_In _ (i mod 10)%nat).
      rewrite nth_error_firstn.
      assert (Hmod : (i mod 10 < 10)%nat) by (apply Nat.mod_upper_bound; discriminate).
      apply Nat.ltb_lt in Hmod. rewrite Hmod, nth_error_skipn.
      replace ((S (i / 10) - 1) * 10 + i mod 10)%nat with i; [assumption|].
      pose proof (Nat.div_mod_eq i 10). lia.
  - intros [page [rows [Hpage Hin]]].
    destruct ((page <? 1)%nat || _); [discriminate|].
    assert (E : rows = firstn 10 (skipn ((page - 1) * 10) queryset)) by congruence.
    subst rows. apply In_nth_error in Hin. destruct Hin as [j Hj].
    rewrite nth_error_firstn in Hj. destruct (j <? 10)%nat; [|discriminate].
    rewrite nth_error_skipn in Hj. now apply nth_error_In in Hj.
Qed.

(** Twenty-five rows make three pages of ten, ten and five. *)
Example paginate_25 :
  paginate_queryset (repeat tt 25) 1 = Ok (repeat tt 10) /\
  paginate_queryset (repeat tt 25) 3 = Ok (repeat tt 5) /\
  paginate_queryset (repeat tt 25) 4 = Raise Http404 /\
  paginate_queryset (@nil unit) 1 = Ok [].
Proof. repeat split. Qed.

(** The owner's profile lists the future post, the draft and the public
    post, newest first, the public post with its two comments. *)
Example profile_of_alice_as_alice :
  option_map (fun found => map (fun r => (Post.id (post_of r), annotated_comment_count r))
                               (snd found))
    match ProfileView_get_queryset Fixture.db
            (Fixture.request (Authenticated Fixture.alice) GET "/profile/alice/")
            "alice" Fixture.now with
    | Ok found => Some found
    | Raise _ => None
    end
  = Some [(3, 0%nat); (2, 0%nat); (1, 2%nat)].
Proof. reflexivity. Qed.

(* ===================================================================== *)
(** ** Listings and the visibility predicate *)
(* ===================================================================== *)

Lemma appears_on_some_page p (listing : list AnnotatedPost) :
  appears_in p listing <->
  exists page rows, paginate_queryset listing page = Ok rows /\ appears_in p rows.
Proof.
  unfold appears_in. rewrite in_map_iff. split.
  - intros [r [Hr Hin]]. apply paginate_queryset_covers in Hin.
    destruct Hin as [page [rows [Hpage Hin]]].
    exists page, rows. split; [assumption|]. apply in_map_iff. eauto.
  - intros [page [rows [Hpage Hin]]]. apply in_map_iff in Hin.
    destruct Hin as [r [Hr Hin]]. exists r. split; [assumption|].
    apply paginate_queryset_covers. eauto.
Qed.

Lemma on_home_listing_queryset db now p :
  on_home_listing db now p <-> appears_in p (PostListView_get_queryset db now).
Proof.
  unfold on_home_listing, PostListView_get. rewrite appears_on_some_page.
  split; intros [page [rows [H Hin]]]; exists page, rows; split; try assumption.
  - destruct (paginate_queryset _ page); simpl in H; [congruence|].
    destruct e; discriminate.
  - now rewrite H.
Qed.

(** C1.  A stored post appears in the home listing, as a queryset and on
    its pages, iff it is visible to the public at the time of the
    request; the listing of a published category, asked for by its slug,
    holds exactly the posts of that category that are visible to the
    public. *)
Theorem home_and_category_listing_visible db now P :
  (appears_in P (PostListView_get_queryset db now) <->
   In P (posts db) /\ is_visible_to_public db P now) /\
  (on_home_listing db now P <->
   In P (posts db) /\ is_visible_to_public db P now) /\
  (forall category,
      NoDup (map Category.slug (categories db)) ->
      In category (categories db) ->
      Category.is_published category = true ->
      exists listing,
        CategoryPostsView_get_queryset db (Category.slug category) now
        = Ok (category, listing) /\
        (appears_in P listing <->
         In P (posts db) /\ Post.category P = Category.id category /\
         is_visible_to_public db P now)).
Proof.
  assert (Hhome : appears_in P (PostListView_get_queryset db now) <->
                  In P (posts db) /\ is_visible_to_public db P now).
  { unfold PostListView_get_queryset.
    rewrite appears_in_ordered, filter_In, published_Q_spec. reflexivity. }
  split; [exact Hhome|]. split; [now rewrite on_home_listing_queryset|].
  intros category Hnd Hin Hpub.
  unfold CategoryPostsView_get_queryset.
  assert (Hget : get_object_or_404 (categories db)
                   (fun c => String.eqb (Category.slug c) (Category.slug category)
                             && Category.is_published c) = Ok category).
  { apply get_object_or_404_Ok.
    apply (filter_unique_key Category.slug String.eqb Category.is_published);
      auto using String.eqb_eq. }
  rewrite Hget. simpl. eexists. split; [reflexivity|].
  rewrite appears_in_ordered, filter_In, andb_true_iff, N.eqb_eq, published_Q_spec.
  tauto.
Qed.

Lemma home_and_category_listing_visible_witness :
  appears_in Fixture.public_post
             (PostListView_get_queryset Fixture.db Fixture.now) /\
  exists listing,
    CategoryPostsView_get_queryset Fixture.db "travel" Fixture.now
    = Ok (Fixture.travel, listing) /\
    (appears_in Fixture.public_post listing <->
     In Fixture.public_post (posts Fixture.db) /\
     Post.category Fixture.public_post = Category.id Fixture.travel /\
     is_visible_to_public Fixture.db Fixture.public_post Fixture.now).
Proof.
  split.
  - vm_compute. now left.
  - apply (proj2 (proj2 (home_and_category_listing_visible
                           Fixture.db Fixture.now Fixture.public_post))
             Fixture.travel).
    + repeat constructor; simpl; intuition discriminate.
    + simpl. now left.
    + reflexivity.
Defined.

(** A category that is not published has no listing: the request is
    answered not-found. *)
Lemma unpublished_category_not_found db category_slug now :
  (forall c, In c (categories db) -> Category.slug c = category_slug ->
             Category.is_published c = false) ->
  CategoryPostsView_get_queryset db category_slug now = Raise Http404.
Proof.
  intro H. unfold CategoryPostsView_get_queryset, get_object_or_404, get.
  rewrite filter_none; [reflexivity|].
  intros c Hin. destruct (String.eqb_spec (Category.slug c) category_slug) as [E|E].
  - now rewrite (H c Hin E).
  - reflexivity.
Qed.

(** C3.  In the profile listing of a post's author the post appears
    whatever its publication state when the viewer is that author; for
    any other viewer it appears iff it is visible to the public. *)
Theorem profile_listing_owner_sees_all db request now profile P :
  NoDup (map User.username (users db)) ->
  In profile (users db) ->
  In P (posts db) ->
  Post.author P = User.id profile ->
  exists listing,
    ProfileView_get_queryset db request (User.username profile) now
    = Ok (profile, listing) /\
    (user_is (user request) (User.id profile) = true -> appears_in P listing) /\
    (user_is (user request) (User.id profile) = false ->
     (appears_in P listing <-> is_visible_to_public db P now)).
Proof.
  intros Hnd Hin HP Hauthor.
  unfold ProfileView_get_queryset.
  assert (Hget : get_object_or_404 (users db)
                   (fun u => String.eqb (User.username u) (User.username profile))
                 = Ok profile).
  { apply get_object_or_404_Ok.
    pose proof (filter_unique_key User.username String.eqb (fun _ => true)
                  (users db) profile String.eqb_eq Hnd Hin eq_refl) as Hf.
    rewrite <- Hf. apply filter_ext. intro u. now rewrite andb_true_r. }
  rewrite Hget. simpl.
  destruct (user_is (user request) (User.id profile)) eqn:Hown;
    eexists; (split; [reflexivity|]); split; intro Hc; try discriminate.
  - apply appears_in_ordered, filter_In. split; [assumption | now apply N.eqb_eq].
  - rewrite appears_in_ordered, !filter_In, published_Q_spec, N.eqb_eq. tauto.
Qed.

Lemma profile_listing_owner_sees_all_witness :
  exists listing,
    ProfileView_get_queryset Fixture.db
      (Fixture.request (Authenticated Fixture.alice) GET "/profile/alice/")
      "alice" Fixture.now
    = Ok (Fixture.alice, listing) /\
    appears_in Fixture.draft listing.
Proof.
  destruct (profile_listing_owner_sees_all Fixture.db
              (Fixture.request (Authenticated Fixture.alice) GET "/profile/alice/")
              Fixture.now Fixture.alice Fixture.draft) as [listing [Hq [Hown _]]].
  - repeat constructor; simpl; intuition discriminate.
  - simpl. now left.
  - simpl. right. now left.
  - reflexivity.
  - exists listing. split; [exact Hq | now apply Hown].
Defined.

(* ===================================================================== *)
(** ** Post detail *)
(* ===================================================================== *)

(** With the category of the post resolved, the three tests of
    [PostDetailView.get_object] are the negation of the listing filter. *)
Lemma PostDetailView_get_object_resolved db request post_id now P c :
  get_object Post.id (posts db) post_id = Ok P ->
  Post_category db P = Ok c ->
  PostDetailView_get_object db request post_id now =
  if negb (published_Q db now P) && negb (user_is (user request) (Post.author P))
  then Raise Http404 else Ok P.
Proof.
  intros HP Hc. unfold PostDetailView_get_object. rewrite HP. simpl.
  unfold published_Q. rewrite (category__is_published_resolved _ _ _ Hc).
  destruct (Post.is_published P); simpl.
  - rewrite Hc. simpl.
    rewrite Z.gtb_ltb, Z.ltb_antisym.
    destruct (Category.is_published c), (Post.pub_date P <=? now)%Z; simpl;
      destruct (user_is (user request) (Post.author P)); reflexivity.
  - destruct (user_is (user request) (Post.author P)); reflexivity.
Qed.

(** C2.  For a post found by its identifier, the detail view answers
    not-found iff the post is not visible to the public and the viewer is
    not its author; in every other case it answers with the post. *)
Theorem post_detail_not_found_iff db request post_id now P c :
  get_object Post.id (posts db) post_id = Ok P ->
  Post_category db P = Ok c ->
  (PostDetailView_get db request post_id now = HttpResponseNotFound <->
   ~ is_visible_to_public db P now /\
   user_is (user request) (Post.author P) = false) /\
  (~ (~ is_visible_to_public db P now /\
      user_is (user request) (Post.author P) = false) ->
   PostDetailView_get_object db request post_id now = Ok P /\
   PostDetailView_get db request post_id now =
   TemplateResponse "blog/detail.html" (PostDetailView_get_context_data db P)).
Proof.
  intros HP Hc.
  unfold PostDetailView_get.
  rewrite (PostDetailView_get_object_resolved _ _ _ _ _ _ HP Hc).
  rewrite <- published_Q_false.
  destruct (published_Q db now P), (user_is (user request) (Post.author P));
    simpl; (split; [split|]); intros; try discriminate; intuition congruence.
Qed.

Lemma post_detail_not_found_iff_witness :
  PostDetailView_get Fixture.db
    (Fixture.request AnonymousUser GET "/posts/2/") 2 Fixture.now
  = HttpResponseNotFound /\
  PostDetailView_get_object Fixture.db
    (Fixture.request (Authenticated Fixture.alice) GET "/posts/2/") 2 Fixture.now
  = Ok Fixture.draft.
Proof.
  split.
  - apply (proj1 (post_detail_not_found_iff Fixture.db
                    (Fixture.request AnonymousUser GET "/posts/2/") 2 Fixture.now
                    Fixture.draft Fixture.travel eq_refl eq_refl)).
    split; [|reflexivity].
    apply published_Q_false. reflexivity.
  - apply (proj2 (post_detail_not_found_iff Fixture.db
                    (Fixture.request (Authenticated Fixture.alice) GET "/posts/2/")
                    2 Fixture.now Fixture.draft Fixture.travel eq_refl eq_refl)).
    intros [_ H]. discriminate H.
Defined.

(** A post that does not exist is answered not-found as well. *)
Lemma post_detail_absent db request post_id now :
  (forall p, In p (posts db) -> Post.id p <> post_id) ->
  PostDetailView_get db request post_id now = HttpResponseNotFound.
Proof.
  intro H. unfold PostDetailView_get, PostDetailView_get_object, get_object,
             get_object_or_404, get.
  rewrite filter_none; [reflexivity|].
  intros p Hin. apply N.eqb_neq. now apply H.
Qed.

(* ===================================================================== *)
(** ** Editing a post *)
(* ===================================================================== *)

(** C4.  A post-edit request by a viewer who is not the author of the
    post, anonymous or logged in, with any method and any submitted form,
    is answered by a redirect to the detail page of the post and leaves
    the store, and with it every field of the post, as it was. *)
Theorem post_edit_by_non_author_redirects db request post_id data P :
  get_object Post.id (posts db) post_id = Ok P ->
  user_is (user request) (Post.author P) = false ->
  PostEditView_dispatch db request post_id data
  = (HttpResponseRedirect (urls.post_detail (Post.id P)), db) /\
  get_object Post.id
    (posts (snd (PostEditView_dispatch db request post_id data))) post_id
  = Ok P.
Proof.
  intros HP Hv.
  assert (Hd : PostEditView_dispatch db request post_id data
               = (HttpResponseRedirect (urls.post_detail (Post.id P)), db)).
  { unfold PostEditView_dispatch, PostEditView_get_object.
    rewrite HP. simpl. rewrite Hv. simpl.
    destruct (get_object_pk _ _ _ _ HP) as [_ ->]. reflexivity. }
  split; [exact Hd|]. rewrite Hd. exact HP.
Qed.

Lemma post_edit_by_non_author_redirects_witness :
  PostEditView_dispatch Fixture.db
    (Fixture.request (Authenticated Fixture.bob) POST "/posts/1/edit/") 1
    (Valid {| PostForm.title := "changed"; PostForm.text := "changed";
              PostForm.pub_date := 0%Z; PostForm.location := None;
              PostForm.category := 2; PostForm.image := None |})
  = (HttpResponseRedirect "/posts/1/", Fixture.db).
Proof.
  apply (proj1 (post_edit_by_non_author_redirects Fixture.db
                  (Fixture.request (Authenticated Fixture.bob) POST "/posts/1/edit/")
                  1 _ Fixture.public_post eq_refl eq_refl)).
Defined.

(** The same submission by the author is saved: the edit path does write
    to the store. *)
Example post_edit_by_author_saves :
  let data := Valid {| PostForm.title := "changed"; PostForm.text := "changed";
                       PostForm.pub_date := 0%Z; PostForm.location := None;
                       PostForm.category := 2; PostForm.image := None |} in
  let handled :=
    PostEditView_dispatch Fixture.db
      (Fixture.request (Authenticated Fixture.alice) POST "/posts/1/edit/") 1 data in
  fst handled = HttpResponseRedirect "/posts/1/" /\
  option_map Post.title (hd_error (posts (snd handled))) = Some "changed"%string.
Proof. split; reflexivity. Qed.

(* ===================================================================== *)
(** ** Anonymous requests *)
(* ===================================================================== *)

(** C5, as amended.  An anonymous request to a login-required route other
    than post edit is redirected to the login page and changes nothing.
    On the post-edit route the ownership test of [PostEditView.dispatch]
    comes first: for an existing post the anonymous viewer is sent to the
    detail page of the post. *)
Theorem anonymous_redirected_to_login dflt db now request route :
  user request = AnonymousUser ->
  match route with
  | post_edit post_id _ =>
      forall P, get_object Post.id (posts db) post_id = Ok P ->
                resolve dflt db now request route
                = (HttpResponseRedirect (urls.post_detail post_id), db)
  | _ => resolve dflt db now request route = (RedirectToLogin (path request), db)
  end.
Proof.
  intro Hanon.
  destruct route; simpl;
    unfold PostCreateView_dispatch, PostDeleteView_dispatch,
      CommentCreateView_dispatch, CommentEditView_dispatch,
      CommentDeleteView_dispatch, ProfileEditView_dispatch,
      LoginRequiredMixin_dispatch, handle_no_permission;
    try (rewrite Hanon; reflexivity).
  intros P HP. unfold PostEditView_dispatch, PostEditView_get_object.
  rewrite HP, Hanon. reflexivity.
Qed.

Lemma anonymous_redirected_to_login_witness :
  resolve true Fixture.db Fixture.now
    (Fixture.request AnonymousUser POST "/posts/1/delete/") (post_delete 1)
  = (RedirectToLogin "/posts/1/delete/", Fixture.db).
Proof.
  apply (anonymous_redirected_to_login true Fixture.db Fixture.now
           (Fixture.request AnonymousUser POST "/posts/1/delete/")
           (post_delete 1) eq_refl).
Defined.

(** C5, as stated, fails on the post-edit route: the anonymous request is
    not sent to the login page. *)
Lemma anonymous_post_edit_not_login :
  is_login_redirect
    (fst (resolve true Fixture.db Fixture.now
            (Fixture.request AnonymousUser GET "/posts/1/edit/")
            (post_edit 1 Invalid))) = false /\
  fst (resolve true Fixture.db Fixture.now
         (Fixture.request AnonymousUser GET "/posts/1/edit/")
         (post_edit 1 Invalid)) = HttpResponseRedirect "/posts/1/".
Proof. split; reflexivity. Qed.

(* ===================================================================== *)
(** ** Comments *)
(* ===================================================================== *)

(** Opens the chain of access mixins in front of a comment view. *)
Ltac open_comment_mixins :=
  unfold CommentEditView_dispatch, CommentDeleteView_dispatch,
    LoginRequiredMixin_dispatch, UserPassesTestMixin_dispatch,
    Comment_test_func, handle_no_permission.

(** C6.  A comment-delete request by a logged-in viewer who is not the
    author of the comment is answered Forbidden, whatever the method, and
    the comment table is left as it was. *)
Theorem comment_delete_by_non_author_forbidden db request post_id comment_id C u :
  user request = Authenticated u ->
  get_object Comment.id (comments db) comment_id = Ok C ->
  User.id u <> Comment.author C ->
  CommentDeleteView_dispatch db request post_id comment_id
  = (HttpResponseForbidden, db) /\
  status_code (fst (CommentDeleteView_dispatch db request post_id comment_id)) = 403 /\
  comments (snd (CommentDeleteView_dispatch db request post_id comment_id))
  = comments db.
Proof.
  intros Hu HC Hne.
  assert (Hd : CommentDeleteView_dispatch db request post_id comment_id
               = (HttpResponseForbidden, db)).
  { open_comment_mixins. rewrite HC, Hu. simpl. apply N.eqb_neq in Hne. rewrite Hne. reflexivity. }
  rewrite Hd. repeat split.
Qed.

Lemma comment_delete_by_non_author_forbidden_witness :
  CommentDeleteView_dispatch Fixture.db
    (Fixture.request (Authenticated Fixture.alice) POST "/posts/1/delete_comment/1/")
    1 1
  = (HttpResponseForbidden, Fixture.db).
Proof.
  apply (proj1 (comment_delete_by_non_author_forbidden Fixture.db
                  (Fixture.request (Authenticated Fixture.alice) POST
                     "/posts/1/delete_comment/1/")
                  1 1 Fixture.first_comment Fixture.alice eq_refl eq_refl
                  ltac:(simpl; discriminate))).
Defined.

(** The same request by the author removes the comment. *)
Example comment_delete_by_author_removes :
  CommentDeleteView_dispatch Fixture.db
    (Fixture.request (Authenticated Fixture.bob) POST "/posts/1/delete_comment/1/")
    1 1
  = (HttpResponseRedirect "/posts/1/",
     with_comments Fixture.db [Fixture.second_comment]).
Proof. reflexivity. Qed.

(** The fragment of a URL built by appending [#...] to a path. *)
Lemma url_fragment_app_no_hash (a b : string) :
  url_fragment a = None ->
  url_fragment (a ++ "#" ++ b) = Some b.
Proof.
  induction a as [|c a IH]; simpl; intro H; [reflexivity|].
  destruct (Ascii.eqb c "#"); [discriminate | now apply IH].
Qed.

Lemma url_fragment_app_None (a b : string) :
  url_fragment a = None -> url_fragment b = None ->
  url_fragment (a ++ b) = None.
Proof.
  induction a as [|c a IH]; simpl; intros Ha Hb; [assumption|].
  destruct (Ascii.eqb c "#"); [discriminate | now apply IH].
Qed.

(** Decimal digits hold no [#]. *)
Lemma url_fragment_str n : url_fragment (str n) = None.
Proof.
  unfold str. generalize (N.to_uint n). intro d.
  induction d; simpl; auto.
Qed.

Lemma url_fragment_post_detail post_id :
  url_fragment (urls.post_detail post_id) = None.
Proof.
  unfold urls.post_detail.
  apply (url_fragment_app_None "/posts/"); [reflexivity|].
  apply url_fragment_app_None; [apply url_fragment_str | reflexivity].
Qed.

Lemma fold_right_max_ge ids n : In n ids -> n <= fold_right N.max 0 ids.
Proof.
  induction ids as [|m ids IH]; simpl; intros [].
  - subst. apply N.le_max_l.
  - etransitivity; [now apply IH | apply N.le_max_r].
Qed.

(** The key given to a new row is not in the table. *)
Lemma next_id_fresh ids : ~ In (next_id ids) ids.
Proof.
  intro H. apply fold_right_max_ge in H. unfold next_id in H. lia.
Qed.

(** C7.  A valid comment submission by a logged-in user on an existing
    post appends exactly one comment to the comment table, with a key not
    used before, the user as author and the post as post, and is answered
    by a redirect to the detail page of the post with the fragment
    [comment<id>] of the new comment. *)
Theorem comment_create_adds_one db request post_id f now u P :
  user request = Authenticated u ->
  method request = POST ->
  get_object Post.id (posts db) post_id = Ok P ->
  exists c,
    CommentCreateView_dispatch db request post_id (Valid f) now
    = (HttpResponseRedirect
         (urls.post_detail (Post.id P) ++ "#comment" ++ str (Comment.id c)),
       with_comments db (comments db ++ [c])) /\
    Comment.author c = User.id u /\
    Comment.post c = Post.id P /\
    Comment.text c = CommentForm.text f /\
    ~ In (Comment.id c) (map Comment.id (comments db)) /\
    url_fragment (urls.post_detail (Post.id P) ++ "#comment" ++ str (Comment.id c))
    = Some ("comment" ++ str (Comment.id c))%string.
Proof.
  intros Hu Hm HP.
  destruct (get_object_pk _ _ _ _ HP) as [_ Hid].
  exists {| Comment.id := next_id (map Comment.id (comments db));
            Comment.text := CommentForm.text f;
            Comment.created_at := now;
            Comment.author := User.id u;
            Comment.post := Post.id P |}.
  split; [|repeat split].
  - unfold CommentCreateView_dispatch, LoginRequiredMixin_dispatch,
      CommentCreateView_form_valid, CommentCreateView_get_success_url.
    rewrite Hu, Hm. cbn [is_authenticated].
    unfold get_object in HP. rewrite HP. cbn [bind Comment.id].
    rewrite Hid. reflexivity.
  - apply next_id_fresh.
  - apply (url_fragment_app_no_hash _ ("comment" ++ _)), url_fragment_post_detail.
Qed.

Lemma comment_create_adds_one_witness :
  exists c,
    CommentCreateView_dispatch Fixture.db
      (Fixture.request (Authenticated Fixture.bob) POST "/posts/1/comment/") 1
      (Valid {| CommentForm.text := "third" |}) Fixture.now
    = (HttpResponseRedirect "/posts/1/#comment3",
       with_comments Fixture.db (comments Fixture.db ++ [c])) /\
    Comment.author c = 2 /\ Comment.post c = 1.
Proof.
  destruct (comment_create_adds_one Fixture.db
              (Fixture.request (Authenticated Fixture.bob) POST "/posts/1/comment/")
              1 {| CommentForm.text := "third" |} Fixture.now
              Fixture.bob Fixture.public_post eq_refl eq_refl eq_refl)
    as [c [Hd [Ha [Hp _]]]].
  exists c. split; [|split; assumption].
  rewrite Hd. vm_compute in Hd |- *.
  injection Hd as <-. reflexivity.
Defined.

(* ===================================================================== *)
(** ** The comments of the detail page *)
(* ===================================================================== *)

Lemma insert_by_created_at_perm c l :
  Permutation (insert_by_created_at c l) (c :: l).
Proof.
  induction l as [|x l IH]; simpl; [reflexivity|].
  destruct (Comment.created_at c <=? Comment.created_at x)%Z.
  - reflexivity.
  - rewrite IH. apply perm_swap.
Qed.

Lemma Comment_Meta_ordering_perm cs :
  Permutation (Comment_Meta_ordering cs) cs.
Proof.
  induction cs as [|c cs IH]; simpl; [reflexivity|].
  rewrite insert_by_created_at_perm. now constructor.
Qed.

Lemma insert_by_created_at_ascending c l :
  created_at_ascending l -> created_at_ascending (insert_by_created_at c l).
Proof.
  unfold created_at_ascending.
  induction 1 as [|x l Hs IH Hall]; simpl; [repeat constructor|].
  destruct (Comment.created_at c <=? Comment.created_at x)%Z eqn:E.
  - apply Z.leb_le in E. constructor; [now constructor|].
    constructor; [assumption|].
    rewrite Forall_forall in *. intros y Hy. specialize (Hall y Hy). lia.
  - apply Z.leb_gt in E. constructor; [assumption|].
    rewrite Forall_forall in *. intros y Hy.
    apply (Permutation_in _ (insert_by_created_at_perm c l)) in Hy.
    destruct Hy as [<-|Hy]; [lia | now apply Hall].
Qed.

Lemma Comment_Meta_ordering_ascending cs :
  created_at_ascending (Comment_Meta_ordering cs).
Proof.
  induction cs as [|c cs IH]; simpl; [constructor|].
  now apply insert_by_created_at_ascending.
Qed.



Lemma In_Post_comments db p c :
  In c (Post_comments db p) <->
  In c (comments db) /\ Comment.post c = Post.id p.
Proof.
  unfold Post_comments. split.
  - intro H. apply (Permutation_in _ (Comment_Meta_ordering_perm _)) in H.
    apply filter_In in H. now rewrite N.eqb_eq in H.
  - intros [Hin Hpost].
    apply (Permutation_in _ (Permutation_sym (Comment_Meta_ordering_perm _))).
    apply filter_In. split; [assumption | now apply N.eqb_eq].
Qed.

(** When author keys resolve, the join with the user table keeps every
    comment once and in place, and pairs it with its author. *)
Lemma select_related_author_fst db cs :
  authors_resolve db -> incl cs (comments db) ->
  map fst (select_related_author db cs) = cs.
Proof.
  intros Hres. induction cs as [|c cs IH]; intro Hincl; [reflexivity|].
  unfold select_related_author in *. simpl.
  destruct (Hres c) as [u Hu]; [apply Hincl; now left|].
  rewrite Hu. simpl. f_equal. apply IH.
  intros x Hx. apply Hincl. now right.
Qed.

Lemma select_related_author_resolved db cs c u :
  In (c, u) (select_related_author db cs) ->
  In c cs /\ In u (users db) /\ User.id u = Comment.author c.
Proof.
  unfold select_related_author. rewrite in_flat_map.
  intros [c' [Hc' H]]. apply in_map_iff in H. destruct H as [u' [Heq Hu']].
  inversion Heq; subst. apply filter_In in Hu'. destruct Hu' as [Hin Hid].
  apply N.eqb_eq in Hid. auto.
Qed.

(** C8.  When the detail view succeeds, its context holds the post, an
    unbound comment form without instance, and the comments on the post:
    every one of them exactly once, in ascending order of creation time,
    each paired with its author. *)
Theorem post_detail_context_comments db request post_id now P :
  PostDetailView_get_object db request post_id now = Ok P ->
  authors_resolve db ->
  exists ctx,
    PostDetailView_get db request post_id now
    = TemplateResponse "blog/detail.html" ctx /\
    detail_object ctx = P /\
    detail_form ctx = Unbound None /\
    Permutation (map fst (detail_comments ctx))
                (filter (fun c => Comment.post c =? Post.id P) (comments db)) /\
    created_at_ascending (map fst (detail_comments ctx)) /\
    (forall c u, In (c, u) (detail_comments ctx) ->
                 In u (users db) /\ User.id u = Comment.author c).
Proof.
  intros Hobj Hres.
  exists (PostDetailView_get_context_data db P).
  assert (Hfst : map fst (detail_comments (PostDetailView_get_context_data db P))
                 = Post_comments db P).
  { simpl. apply select_related_author_fst; [assumption|].
    intros c Hc. now apply In_Post_comments in Hc. }
  split; [unfold PostDetailView_get; now rewrite Hobj|].
  split; [reflexivity|]. split; [reflexivity|].
  rewrite Hfst. split; [apply Comment_Meta_ordering_perm|].
  split; [apply Comment_Meta_ordering_ascending|].
  intros c u H. simpl in H. now apply select_related_author_resolved in H.
Qed.

Lemma fixture_authors_resolve : authors_resolve Fixture.db.
Proof.
  intros c [<-|[<-|[]]]; eexists; reflexivity.
Defined.

Lemma post_detail_context_comments_witness :
  exists ctx,
    PostDetailView_get Fixture.db
      (Fixture.request AnonymousUser GET "/posts/1/") 1 Fixture.now
    = TemplateResponse "blog/detail.html" ctx /\
    detail_form ctx = Unbound None /\
    created_at_ascending (map fst (detail_comments ctx)).
Proof.
  destruct (post_detail_context_comments Fixture.db
              (Fixture.request AnonymousUser GET "/posts/1/") 1 Fixture.now
              Fixture.public_post eq_refl fixture_authors_resolve)
    as [ctx [Hget [_ [Hform [_ [Hasc _]]]]]].
  exists ctx. repeat split; assumption.
Defined.

(** Two comments stored with creation times 20 and 10 are shown in the
    order 10, 20. *)
Example post_detail_comments_by_creation_time :
  option_map (fun ctx => map (fun cu => Comment.created_at (fst cu))
                             (detail_comments ctx))
    match PostDetailView_get Fixture.after_two_comments
            (Fixture.request AnonymousUser GET "/posts/1/") 1 Fixture.now with
    | TemplateResponse _ ctx => Some ctx
    | _ => None
    end
  = Some [10; 20]%Z.
Proof. reflexivity. Qed.

(* ===================================================================== *)
(** ** Editing and deleting a comment *)
(* ===================================================================== *)

(** What a POST by the author of the comment does on the two routes. *)
Lemma comment_edit_by_author db request post_id comment_id C f :
  get_object Comment.id (comments db) comment_id = Ok C ->
  user_is (user request) (Comment.author C) = true ->
  method request = POST ->
  CommentEditView_dispatch db request post_id comment_id (Valid f)
  = (HttpResponseRedirect
       (urls.post_detail (Comment.post C) ++ "#comment_" ++ str (Comment.id C)),
     with_comments db
       (save Comment.id
          {| Comment.id := Comment.id C;
             Comment.text := CommentForm.text f;
             Comment.created_at := Comment.created_at C;
             Comment.author := Comment.author C;
             Comment.post := Comment.post C |}
          (comments db))).
Proof.
  intros HC Hv Hm. open_comment_mixins.
  rewrite HC, Hm. simpl. rewrite Hv.
  destruct (user request); [discriminate|]. reflexivity.
Qed.

Lemma comment_delete_by_author db request post_id comment_id C :
  get_object Comment.id (comments db) comment_id = Ok C ->
  user_is (user request) (Comment.author C) = true ->
  method request = POST ->
  CommentDeleteView_dispatch db request post_id comment_id
  = (HttpResponseRedirect (urls.post_detail post_id),
     with_comments db (delete Comment.id (Comment.id C) (comments db))).
Proof.
  intros HC Hv Hm. open_comment_mixins.
  rewrite HC, Hm. simpl. rewrite Hv.
  destruct (user request); [discriminate|]. reflexivity.
Qed.

(** C9, as amended.  A successful comment edit by the author of the
    comment is answered by a redirect to the detail page of the comment's
    post with the fragment [comment_<id>]; a successful comment delete is
    answered by a redirect to the post detail page with no fragment. *)
Theorem comment_edit_anchor_delete_plain db request post_id comment_id C f :
  get_object Comment.id (comments db) comment_id = Ok C ->
  user_is (user request) (Comment.author C) = true ->
  method request = POST ->
  (exists url,
      fst (CommentEditView_dispatch db request post_id comment_id (Valid f))
      = HttpResponseRedirect url /\
      url = (urls.post_detail (Comment.post C)
             ++ "#comment_" ++ str (Comment.id C))%string /\
      url_fragment url = Some ("comment_" ++ str (Comment.id C))%string) /\
  (exists url,
      fst (CommentDeleteView_dispatch db request post_id comment_id)
      = HttpResponseRedirect url /\
      url = urls.post_detail post_id /\
      url_fragment url = None).
Proof.
  intros HC Hv Hm. split; eexists.
  - rewrite (comment_edit_by_author _ _ _ _ _ _ HC Hv Hm). simpl.
    split; [reflexivity|]. split; [reflexivity|].
    apply (url_fragment_app_no_hash _ ("comment_" ++ _)), url_fragment_post_detail.
  - rewrite (comment_delete_by_author _ _ _ _ _ HC Hv Hm). simpl.
    split; [reflexivity|]. split; [reflexivity|].
    apply url_fragment_post_detail.
Qed.

Lemma comment_edit_anchor_delete_plain_witness :
  fst (CommentEditView_dispatch Fixture.db
         (Fixture.request (Authenticated Fixture.bob) POST "/posts/1/edit_comment/1/")
         1 1 (Valid {| CommentForm.text := "edited" |}))
  = HttpResponseRedirect "/posts/1/#comment_1" /\
  fst (CommentDeleteView_dispatch Fixture.db
         (Fixture.request (Authenticated Fixture.bob) POST "/posts/1/edit_comment/1/")
         1 1)
  = HttpResponseRedirect "/posts/1/".
Proof.
  destruct (comment_edit_anchor_delete_plain Fixture.db
              (Fixture.request (Authenticated Fixture.bob) POST
                 "/posts/1/edit_comment/1/")
              1 1 Fixture.first_comment {| CommentForm.text := "edited" |}
              eq_refl eq_refl eq_refl)
    as [[url1 [H1 [E1 _]]] [url2 [H2 [E2 _]]]].
  rewrite H1, H2, E1, E2. split; reflexivity.
Defined.

(** C9, as stated, fails for delete: the URL of the redirect that answers
    a successful comment delete has no fragment. *)
Lemma comment_delete_redirect_has_no_anchor :
  exists url,
    fst (CommentDeleteView_dispatch Fixture.db
           (Fixture.request (Authenticated Fixture.bob) POST
              "/posts/1/delete_comment/1/") 1 1)
    = HttpResponseRedirect url /\
    url = "/posts/1/"%string /\
    url_fragment url = None.
Proof. eexists. repeat split. Qed.

(** C10.  Comment edit and comment delete find the comment and decide on
    access by [comment_id] alone.  Two requests that differ only in
    [post_id] get the same answer from edit, and from delete the same
    status and the same store.  A delete by the author succeeds whatever
    [post_id] is and redirects to the detail page of that [post_id]; an
    edit by the author succeeds whatever [post_id] is and redirects to
    the detail page of the comment's own post. *)
Theorem comment_routes_ignore_post_id db request comment_id post_id post_id' :
  (forall data,
      CommentEditView_dispatch db request post_id comment_id data
      = CommentEditView_dispatch db request post_id' comment_id data) /\
  snd (CommentDeleteView_dispatch db request post_id comment_id)
  = snd (CommentDeleteView_dispatch db request post_id' comment_id) /\
  status_code (fst (CommentDeleteView_dispatch db request post_id comment_id))
  = status_code (fst (CommentDeleteView_dispatch db request post_id' comment_id)) /\
  (forall C,
      get_object Comment.id (comments db) comment_id = Ok C ->
      user_is (user request) (Comment.author C) = true ->
      method request = POST ->
      CommentDeleteView_dispatch db request post_id comment_id
      = (HttpResponseRedirect (urls.post_detail post_id),
         with_comments db (delete Comment.id (Comment.id C) (comments db))) /\
      forall f,
        fst (CommentEditView_dispatch db request post_id comment_id (Valid f))
        = HttpResponseRedirect
            (urls.post_detail (Comment.post C)
             ++ "#comment_" ++ str (Comment.id C))).
Proof.
  split; [reflexivity|]. split; [|split].
  - unfold CommentDeleteView_dispatch, LoginRequiredMixin_dispatch,
      UserPassesTestMixin_dispatch.
    destruct (is_authenticated (user request)); [|reflexivity].
    destruct (Comment_test_func db request comment_id) as [[|]|]; try reflexivity;
      destruct (get_object Comment.id (comments db) comment_id); try reflexivity;
      destruct (method request); reflexivity.
  - unfold CommentDeleteView_dispatch, LoginRequiredMixin_dispatch,
      UserPassesTestMixin_dispatch.
    destruct (is_authenticated (user request)); [|reflexivity].
    destruct (Comment_test_func db request comment_id) as [[|]|]; try reflexivity;
      destruct (get_object Comment.id (comments db) comment_id); try reflexivity;
      destruct (method request); reflexivity.
  - intros C HC Hv Hm. split.
    + now apply comment_delete_by_author.
    + intro f. now rewrite (comment_edit_by_author _ _ _ _ _ _ HC Hv Hm).
Qed.

Lemma comment_routes_ignore_post_id_witness :
  Comment.post Fixture.first_comment = 1 /\
  CommentDeleteView_dispatch Fixture.db
    (Fixture.request (Authenticated Fixture.bob) POST "/posts/4/delete_comment/1/")
    4 1
  = (HttpResponseRedirect "/posts/4/",
     with_comments Fixture.db [Fixture.second_comment]) /\
  fst (CommentEditView_dispatch Fixture.db
         (Fixture.request (Authenticated Fixture.bob) POST "/posts/4/delete_comment/1/")
         4 1 (Valid {| CommentForm.text := "edited" |}))
  = HttpResponseRedirect "/posts/1/#comment_1".
Proof.
  split; [reflexivity|].
  destruct (proj2 (proj2 (proj2
              (comment_routes_ignore_post_id Fixture.db
                 (Fixture.request (Authenticated Fixture.bob) POST
                    "/posts/4/delete_comment/1/") 1 4 1)))
              Fixture.first_comment eq_refl eq_refl eq_refl) as [Hdel Hedit].
  split; [exact Hdel | apply Hedit].
Defined.

(* ===================================================================== *)
(** ** Further facts about keys, saving and deleting *)
(* ===================================================================== *)

Section RowFacts.
Context {A : Type}.
Variable pk_of : A -> N.
Implicit Types (rows : list A).

Lemma get_object_absent rows pk :
  (forall r, In r rows -> pk_of r <> pk) ->
  get_object pk_of rows pk = Raise Http404.
Proof.
  intro H. unfold get_object, get_object_or_404, get.
  rewrite filter_none; [reflexivity|].
  intros r Hin. apply N.eqb_neq. now apply H.
Qed.

Lemma get_object_unique rows x :
  NoDup (map pk_of rows) -> In x rows ->
  get_object pk_of rows (pk_of x) = Ok x.
Proof.
  intros Hnd Hin. unfold get_object. apply get_object_or_404_Ok.
  pose proof (filter_unique_key pk_of N.eqb (fun _ => true) rows x
                N.eqb_eq Hnd Hin eq_refl) as Hf.
  rewrite <- Hf. apply filter_ext. intro r. now rewrite andb_true_r.
Qed.

Lemma In_delete rows pk x :
  In x (delete pk_of pk rows) <-> In x rows /\ pk_of x <> pk.
Proof.
  unfold delete. rewrite filter_In, negb_true_iff, N.eqb_neq. reflexivity.
Qed.

Lemma map_pk_save rows obj :
  map pk_of (save pk_of obj rows) = map pk_of rows.
Proof.
  unfold save. rewrite map_map. apply map_ext. intro r.
  destruct (N.eqb_spec (pk_of r) (pk_of obj)); congruence.
Qed.

Lemma In_save rows obj x :
  In x (save pk_of obj rows) ->
  (In x rows /\ pk_of x <> pk_of obj) \/ x = obj.
Proof.
  unfold save. rewrite in_map_iff. intros [r [Hr Hin]].
  destruct (N.eqb_spec (pk_of r) (pk_of obj)); subst; auto.
Qed.

Lemma In_save_other rows obj x :
  In x rows -> pk_of x <> pk_of obj -> In x (save pk_of obj rows).
Proof.
  intros Hin Hne. unfold save. apply in_map_iff. exists x.
  apply N.eqb_neq in Hne. rewrite Hne. auto.
Qed.

Lemma In_save_self rows obj r :
  In r rows -> pk_of r = pk_of obj -> In obj (save pk_of obj rows).
Proof.
  intros Hin He. unfold save. apply in_map_iff. exists r.
  apply N.eqb_eq in He. rewrite He. auto.
Qed.

Lemma NoDup_map_filter (f : A -> bool) rows :
  NoDup (map pk_of rows) -> NoDup (map pk_of (filter f rows)).
Proof.
  induction rows as [|r rows IH]; simpl; intro H; [constructor|].
  inversion H as [|? ? Hnotin Hnd]; subst.
  destruct (f r); simpl; [|now apply IH].
  constructor; [|now apply IH].
  intro Hin. apply Hnotin. apply in_map_iff in Hin.
  destruct Hin as [y [Hy Hin]]. apply filter_In in Hin.
  apply in_map_iff. exists y. tauto.
Qed.

Lemma NoDup_map_app_fresh rows x :
  NoDup (map pk_of rows) -> ~ In (pk_of x) (map pk_of rows) ->
  NoDup (map pk_of (rows ++ [x])).
Proof.
  intros Hnd Hfresh. rewrite map_app. simpl.
  apply NoDup_app; [assumption | repeat constructor; auto |].
  intros k Hk [<-|[]]. contradiction.
Qed.
End RowFacts.

(* ===================================================================== *)
(** ** More on the listings *)
(* ===================================================================== *)

Lemma ordered_annotated_rows db ps :
  Sorted newer_or_equal (order_by_pub_date_desc (annotate db ps)) /\
  Permutation (map post_of (order_by_pub_date_desc (annotate db ps))) ps /\
  (forall r, In r (order_by_pub_date_desc (annotate db ps)) ->
             annotated_comment_count r = comment_count db (post_of r)).
Proof.
  split; [apply order_by_pub_date_desc_sorted|]. split.
  - rewrite (Permutation_map post_of (order_by_pub_date_desc_perm _)).
    now rewrite map_post_of_annotate.
  - intros r. apply annotation_is_comment_count.
Qed.

(** X1.  The home queryset is ordered newest first, holds every visible
    stored post as often as the post table does and nothing else, and
    every row carries the number of comments stored for its post. *)
Theorem home_listing_newest_first_with_counts db now :
  Sorted newer_or_equal (PostListView_get_queryset db now) /\
  Permutation (map post_of (PostListView_get_queryset db now))
              (filter (published_Q db now) (posts db)) /\
  (forall r, In r (PostListView_get_queryset db now) ->
             annotated_comment_count r
             = List.length (filter (fun c => Comment.post c =? Post.id (post_of r))
                                   (comments db))).
Proof.
  unfold PostListView_get_queryset. apply ordered_annotated_rows.
Qed.

Lemma firstn_nil_inv {A} (n : nat) (l : list A) :
  firstn (S n) l = [] -> l = [].
Proof. destruct l; [reflexivity | discriminate]. Qed.

(** X2.  A page of a listing is a run of consecutive rows of the
    queryset: it starts after [(page - 1) * 10] rows, has at most ten
    rows, exactly ten when rows follow it, and is empty only when the
    queryset is. *)
Theorem page_is_slice_of_queryset {A} (queryset : list A) page rows :
  paginate_queryset queryset page = Ok rows ->
  exists before after,
    queryset = before ++ rows ++ after /\
    List.length before = ((page - 1) * 10)%nat /\
    (List.length rows <= 10)%nat /\
    (after <> [] -> List.length rows = 10%nat) /\
    (rows = [] -> queryset = []).
Proof.
  unfold paginate_queryset, num_pages, paginate_by.
  destruct ((page <? 1)%nat || _) eqn:E; [discriminate|].
  apply orb_false_iff in E. destruct E as [E1 E2].
  apply Nat.ltb_ge in E1, E2.
  intro H.
  assert (Hrows : rows = firstn 10 (skipn ((page - 1) * 10) queryset)) by congruence.
  clear H.
  set (b := ((page - 1) * 10)%nat) in *.
  assert (Hb : (b < Nat.max 1 (List.length queryset))%nat).
  { pose proof (Nat.Div0.mul_div_le (Nat.max 1 (List.length queryset) + (10 - 1)) 10).
    subst b. nia. }
  assert (Hle : (b <= List.length queryset)%nat) by lia.
  exists (firstn b queryset), (skipn 10 (skipn b queryset)).
  subst rows. repeat split.
  - now rewrite firstn_skipn, firstn_skipn.
  - rewrite length_firstn. lia.
  - rewrite length_firstn. lia.
  - intro Hafter. rewrite length_firstn.
    assert (10 < List.length (skipn b queryset))%nat; [|lia].
    destruct (Nat.lt_ge_cases 10 (List.length (skipn b queryset))) as [|Hge]; [assumption|].
    exfalso. apply Hafter. apply skipn_all2. exact Hge.
  - intro Hnil. apply firstn_nil_inv in Hnil.
    assert (Hlen : List.length (skipn b queryset) = 0%nat) by now rewrite Hnil.
    rewrite length_skipn in Hlen.
    destruct queryset as [|a queryset]; [reflexivity|].
    cbn [List.length] in Hlen, Hb. lia.
Qed.

Lemma page_is_slice_of_queryset_witness :
  exists before after,
    [1; 2; 3; 4; 5; 6; 7; 8; 9; 10; 11; 12] = before ++ [11; 12] ++ after /\
    List.length before = 10%nat.
Proof.
  destruct (page_is_slice_of_queryset
              [1; 2; 3; 4; 5; 6; 7; 8; 9; 10; 11; 12] 2 [11; 12] eq_refl)
    as [before [after [Hq [Hlen _]]]].
  exists before, after. split; assumption.
Defined.

(** X3.  When no user has the requested username, the profile page is
    answered not-found, whoever asks and whatever the page. *)
Theorem profile_of_unknown_user_not_found db request username now page :
  (forall u, In u (users db) -> User.username u <> username) ->
  ProfileView_get db request username now page = HttpResponseNotFound.
Proof.
  intro H. unfold ProfileView_get, ProfileView_get_queryset, get_object_or_404, get.
  rewrite filter_none; [reflexivity|].
  intros u Hin. apply String.eqb_neq. now apply H.
Qed.

Lemma profile_of_unknown_user_not_found_witness :
  ProfileView_get Fixture.db
    (Fixture.request (Authenticated Fixture.alice) GET "/profile/carol/")
    "carol" Fixture.now 1
  = HttpResponseNotFound.
Proof.
  apply profile_of_unknown_user_not_found.
  intros u [<-|[<-|[]]]; discriminate.
Defined.

(** X4.  A profile listing, for any viewer, holds only stored posts
    written by the user whose username was asked for; that user is the
    profile of the context, and the rows are ordered newest first. *)
Theorem profile_listing_only_own_posts db request username now profile listing :
  ProfileView_get_queryset db request username now = Ok (profile, listing) ->
  In profile (users db) /\
  User.username profile = username /\
  Sorted newer_or_equal listing /\
  (forall P, appears_in P listing ->
             In P (posts db) /\ Post.author P = User.id profile).
Proof.
  unfold ProfileView_get_queryset.
  destruct (get_object_or_404 (users db) _) as [u|e] eqn:Hget; [|discriminate].
  apply get_object_or_404_Ok, filter_singleton_In in Hget.
  destruct Hget as [Hin Hname]. apply String.eqb_eq in Hname.
  simpl.
  assert (Hown : forall ps P,
             appears_in P (order_by_pub_date_desc
                             (annotate db (filter (fun p => Post.author p =? User.id u) ps)))
             -> In P ps /\ Post.author P = User.id u).
  { intros ps P HP. apply appears_in_ordered, filter_In in HP.
    now rewrite N.eqb_eq in HP. }
  destruct (user_is (user request) (User.id u)); intro H;
    injection H as <- <-; (split; [assumption|]); (split; [assumption|]);
    (split; [apply order_by_pub_date_desc_sorted|]); intros P HP.
  - now apply Hown.
  - apply appears_in_ordered, filter_In in HP. destruct HP as [HP _].
    apply filter_In in HP. now rewrite N.eqb_eq in HP.
Qed.

Lemma profile_listing_only_own_posts_witness :
  exists listing,
    ProfileView_get_queryset Fixture.db
      (Fixture.request AnonymousUser GET "/profile/bob/") "bob" Fixture.now
    = Ok (Fixture.bob, listing) /\
    forall P, appears_in P listing -> Post.author P = 2.
Proof.
  eexists. split; [reflexivity|]. intros P HP.
  apply (profile_listing_only_own_posts Fixture.db
           (Fixture.request AnonymousUser GET "/profile/bob/") "bob" Fixture.now
           Fixture.bob _ eq_refl). exact HP.
Defined.

(** X5.  A category listing asked for by a slug that no published
    category has is answered not-found, whatever the page: unknown and
    unpublished categories are not told apart. *)
Theorem category_without_published_slug_not_found db category_slug now page :
  (forall c, In c (categories db) -> Category.slug c = category_slug ->
             Category.is_published c = false) ->
  CategoryPostsView_get db category_slug now page = HttpResponseNotFound.
Proof.
  intro H. unfold CategoryPostsView_get.
  now rewrite unpublished_category_not_found.
Qed.

Lemma category_without_published_slug_not_found_witness :
  CategoryPostsView_get Fixture.db "secret" Fixture.now 1 = HttpResponseNotFound /\
  CategoryPostsView_get Fixture.db "nowhere" Fixture.now 1 = HttpResponseNotFound.
Proof.
  split; apply category_without_published_slug_not_found;
    intros c [<-|[<-|[]]]; simpl; intro; try reflexivity; discriminate.
Defined.

(* ===================================================================== *)
(** ** Identifiers that name no row *)
(* ===================================================================== *)

(** X6.  A [post_id] that the key column of the store can hold (below
    [2 ^ 63]) and that names no stored post is answered not-found by the
    detail view and by the edit view for every viewer, and by the delete
    view and by a valid comment submission for every logged-in viewer;
    the store is left as it was. *)
Theorem absent_post_not_found db request post_id now data f :
  post_id < 2 ^ 63 ->
  (forall p, In p (posts db) -> Post.id p <> post_id) ->
  PostDetailView_get db request post_id now = HttpResponseNotFound /\
  PostEditView_dispatch db request post_id data = (HttpResponseNotFound, db) /\
  (is_authenticated (user request) = true ->
   PostDeleteView_dispatch db request post_id = (HttpResponseNotFound, db) /\
   (method request = POST ->
    CommentCreateView_dispatch db request post_id (Valid f) now
    = (HttpResponseNotFound, db))).
Proof.
  intros _ H. pose proof (get_object_absent Post.id (posts db) post_id H) as Hget.
  split; [now apply post_detail_absent|]. split.
  - unfold PostEditView_dispatch, PostEditView_get_object. now rewrite Hget.
  - intro Hauth. split.
    + unfold PostDeleteView_dispatch, LoginRequiredMixin_dispatch,
        UserPassesTestMixin_dispatch, PostDeleteView_test_func.
      now rewrite Hauth, Hget.
    + intro Hm. unfold CommentCreateView_dispatch, LoginRequiredMixin_dispatch,
        CommentCreateView_form_valid.
      rewrite Hauth, Hm. destruct (user request); [discriminate|].
      unfold get_object in Hget. now rewrite Hget.
Qed.

Lemma absent_post_not_found_witness :
  PostEditView_dispatch Fixture.db
    (Fixture.request (Authenticated Fixture.alice) POST "/posts/9/edit/") 9 Invalid
  = (HttpResponseNotFound, Fixture.db).
Proof.
  apply (absent_post_not_found Fixture.db
           (Fixture.request (Authenticated Fixture.alice) POST "/posts/9/edit/")
           9 Fixture.now Invalid {| CommentForm.text := "" |}).
  - reflexivity.
  - intros p [<-|[<-|[<-|[<-|[]]]]]; discriminate.
Defined.

(** X7.  A [comment_id] that the key column of the store can hold (below
    [2 ^ 63]) and that names no stored comment is answered not-found by
    comment edit and comment delete for every logged-in viewer, whatever
    [post_id] is, and the store is left as it was. *)
Theorem absent_comment_not_found db request post_id comment_id data :
  comment_id < 2 ^ 63 ->
  (forall c, In c (comments db) -> Comment.id c <> comment_id) ->
  is_authenticated (user request) = true ->
  CommentEditView_dispatch db request post_id comment_id data
  = (HttpResponseNotFound, db) /\
  CommentDeleteView_dispatch db request post_id comment_id
  = (HttpResponseNotFound, db).
Proof.
  intros _ H Hauth.
  pose proof (get_object_absent Comment.id (comments db) comment_id H) as Hget.
  split; open_comment_mixins; now rewrite Hauth, Hget.
Qed.

Lemma absent_comment_not_found_witness :
  CommentDeleteView_dispatch Fixture.db
    (Fixture.request (Authenticated Fixture.bob) POST "/posts/1/delete_comment/7/")
    1 7
  = (HttpResponseNotFound, Fixture.db).
Proof.
  apply (absent_comment_not_found Fixture.db
           (Fixture.request (Authenticated Fixture.bob) POST
              "/posts/1/delete_comment/7/") 1 7 Invalid).
  - reflexivity.
  - intros c [<-|[<-|[]]]; discriminate.
  - reflexivity.
Defined.

(* ===================================================================== *)
(** ** Creating, editing and deleting a post *)
(* ===================================================================== *)

(** X8.  A valid post submission by a logged-in user appends exactly one
    post with a key not used before; its author is the user, its
    [is_published] flag is the model default, its other fields are those
    of the form, and the answer is a redirect to the profile page of the
    user. *)
Theorem post_create_adds_post dflt db request f u :
  user request = Authenticated u ->
  method request = POST ->
  exists p,
    PostCreateView_dispatch dflt db request (Valid f)
    = (HttpResponseRedirect (urls.profile (User.username u)),
       with_posts db (posts db ++ [p])) /\
    ~ In (Post.id p) (map Post.id (posts db)) /\
    Post.author p = User.id u /\
    Post.is_published p = dflt /\
    (Post.title p, Post.text p, Post.pub_date p)
    = (PostForm.title f, PostForm.text f, PostForm.pub_date f) /\
    (Post.category p, Post.location p, Post.image p)
    = (PostForm.category f, PostForm.location f, PostForm.image f).
Proof.
  intros Hu Hm.
  exists (PostForm_apply f
            {| Post.id := next_id (map Post.id (posts db));
               Post.title := ""; Post.text := ""; Post.pub_date := 0%Z;
               Post.is_published := dflt; Post.author := User.id u;
               Post.category := 0; Post.location := None; Post.image := None |}).
  split; [|split; [apply next_id_fresh | repeat split]].
  unfold PostCreateView_dispatch, LoginRequiredMixin_dispatch.
  rewrite Hu, Hm. reflexivity.
Qed.

Lemma post_create_adds_post_witness :
  exists p,
    PostCreateView_dispatch true Fixture.db
      (Fixture.request (Authenticated Fixture.bob) POST "/posts/create/")
      (Valid {| PostForm.title := "new"; PostForm.text := "body";
                PostForm.pub_date := 900%Z; PostForm.location := None;
                PostForm.category := 1; PostForm.image := None |})
    = (HttpResponseRedirect "/profile/bob/",
       with_posts Fixture.db (posts Fixture.db ++ [p])) /\
    Post.author p = 2.
Proof.
  destruct (post_create_adds_post true Fixture.db
              (Fixture.request (Authenticated Fixture.bob) POST "/posts/create/")
              {| PostForm.title := "new"; PostForm.text := "body";
                 PostForm.pub_date := 900%Z; PostForm.location := None;
                 PostForm.category := 1; PostForm.image := None |}
              Fixture.bob eq_refl eq_refl) as [p [Hd [_ [Ha _]]]].
  exists p. split; [exact Hd | exact Ha].
Defined.

(** X9.  After a logged-in user has created a post, the post is in that
    user's own profile listing whatever its date and flag; when its
    [pub_date] is later than the time of a request, it is not in the home
    listing of that request. *)
Theorem created_post_on_own_profile dflt db request f u now :
  NoDup (map User.username (users db)) ->
  In u (users db) ->
  user request = Authenticated u ->
  method request = POST ->
  exists p listing,
    posts (snd (PostCreateView_dispatch dflt db request (Valid f)))
    = posts db ++ [p] /\
    ProfileView_get_queryset
      (snd (PostCreateView_dispatch dflt db request (Valid f)))
      request (User.username u) now
    = Ok (u, listing) /\
    appears_in p listing /\
    ((now < PostForm.pub_date f)%Z ->
     ~ appears_in p
         (PostListView_get_queryset
            (snd (PostCreateView_dispatch dflt db request (Valid f))) now)).
Proof.
  intros Hnd Hin Hu Hm.
  set (p := PostForm_apply f
              {| Post.id := next_id (map Post.id (posts db));
                 Post.title := ""; Post.text := ""; Post.pub_date := 0%Z;
                 Post.is_published := dflt; Post.author := User.id u;
                 Post.category := 0; Post.location := None; Post.image := None |}).
  assert (Hd : PostCreateView_dispatch dflt db request (Valid f)
               = (HttpResponseRedirect (urls.profile (User.username u)),
                  with_posts db (posts db ++ [p]))).
  { unfold PostCreateView_dispatch, LoginRequiredMixin_dispatch.
    rewrite Hu, Hm. reflexivity. }
  rewrite Hd. simpl.
  assert (Hget : get_object_or_404 (users db)
                   (fun v => String.eqb (User.username v) (User.username u)) = Ok u).
  { apply get_object_or_404_Ok.
    pose proof (filter_unique_key User.username String.eqb (fun _ => true)
                  (users db) u String.eqb_eq Hnd Hin eq_refl) as Hf.
    rewrite <- Hf. apply filter_ext. intro v. now rewrite andb_true_r. }
  exists p. eexists. split; [reflexivity|].
  unfold ProfileView_get_queryset. simpl. rewrite Hget. simpl.
  rewrite Hu. simpl. rewrite N.eqb_refl.
  split; [reflexivity|]. split.
  - apply appears_in_ordered, filter_In. split.
    + apply in_or_app. right. now left.
    + simpl. apply N.eqb_refl.
  - intros Hfuture Happ. unfold PostListView_get_queryset in Happ.
    apply appears_in_ordered, filter_In in Happ. destruct Happ as [_ HQ].
    unfold published_Q in HQ. rewrite !andb_true_iff in HQ.
    destruct HQ as [_ Hdate]. apply Z.leb_le in Hdate. simpl in Hdate. lia.
Qed.

Lemma created_post_on_own_profile_witness :
  exists p listing,
    posts (snd (PostCreateView_dispatch false Fixture.db
                  (Fixture.request (Authenticated Fixture.bob) POST "/posts/create/")
                  (Valid {| PostForm.title := "new"; PostForm.text := "body";
                            PostForm.pub_date := 900%Z; PostForm.location := None;
                            PostForm.category := 1; PostForm.image := None |})))
    = posts Fixture.db ++ [p] /\
    appears_in p listing /\
    Post.pub_date p = 900%Z.
Proof.
  destruct (created_post_on_own_profile false Fixture.db
              (Fixture.request (Authenticated Fixture.bob) POST "/posts/create/")
              {| PostForm.title := "new"; PostForm.text := "body";
                 PostForm.pub_date := 900%Z; PostForm.location := None;
                 PostForm.category := 1; PostForm.image := None |}
              Fixture.bob Fixture.now)
    as [p [listing [Hp [_ [Happ _]]]]].
  - repeat constructor; simpl; intuition discriminate.
  - simpl. right. now left.
  - reflexivity.
  - reflexivity.
  - exists p, listing. split; [exact Hp|]. split; [exact Happ|].
    vm_compute in Hp. now injection Hp as <-.
Defined.

Lemma filter_pk_save {A} (pk_of : A -> N) (obj : A) (rows : list A) :
  filter (fun r => pk_of r =? pk_of obj) (save pk_of obj rows)
  = map (fun _ => obj) (filter (fun r => pk_of r =? pk_of obj) rows).
Proof.
  unfold save. induction rows as [|r rows IH]; [reflexivity|].
  simpl. destruct (pk_of r =? pk_of obj) eqn:E; simpl.
  - rewrite N.eqb_refl. simpl. now rewrite IH.
  - rewrite E. exact IH.
Qed.

(** What a valid POST by the author does on the edit route. *)
Lemma post_edit_by_author db request post_id P f :
  get_object Post.id (posts db) post_id = Ok P ->
  user_is (user request) (Post.author P) = true ->
  method request = POST ->
  PostEditView_dispatch db request post_id (Valid f)
  = (HttpResponseRedirect (urls.post_detail (Post.id P)),
     with_posts db (save Post.id (PostForm_apply f P) (posts db))).
Proof.
  intros HP Hv Hm. unfold PostEditView_dispatch, PostEditView_get_object,
                     LoginRequiredMixin_dispatch.
  rewrite HP. simpl. rewrite Hv, Hm. simpl.
  destruct (user request); [discriminate|]. reflexivity.
Qed.

(** X10.  A valid edit submitted by the author of a post is answered by a
    redirect to the detail page of the post.  The row keeps its key, its
    author and its [is_published] flag and takes the six fields of the
    form; it is the post found under [post_id] afterwards.  No post is
    added or removed, posts with another key are untouched, and so are
    the comments. *)
Theorem post_edit_by_author_keeps_key_and_author db request post_id P f :
  get_object Post.id (posts db) post_id = Ok P ->
  user_is (user request) (Post.author P) = true ->
  method request = POST ->
  exists P' db',
    PostEditView_dispatch db request post_id (Valid f)
    = (HttpResponseRedirect (urls.post_detail post_id), db') /\
    get_object Post.id (posts db') post_id = Ok P' /\
    (Post.id P', Post.author P', Post.is_published P')
    = (Post.id P, Post.author P, Post.is_published P) /\
    (Post.title P', Post.text P', Post.pub_date P')
    = (PostForm.title f, PostForm.text f, PostForm.pub_date f) /\
    (Post.category P', Post.location P', Post.image P')
    = (PostForm.category f, PostForm.location f, PostForm.image f) /\
    map Post.id (posts db') = map Post.id (posts db) /\
    (forall Q, Post.id Q <> post_id -> (In Q (posts db') <-> In Q (posts db))) /\
    comments db' = comments db /\
    users db' = users db.
Proof.
  intros HP Hv Hm.
  destruct (get_object_pk _ _ _ _ HP) as [HinP Hid]. subst post_id.
  exists (PostForm_apply f P), (with_posts db (save Post.id (PostForm_apply f P) (posts db))).
  split; [now apply post_edit_by_author|].
  split; [|split; [reflexivity|]; split; [reflexivity|]; split; [reflexivity|];
           split; [|split; [|split; reflexivity]]].
  - unfold get_object in *. apply get_object_or_404_Ok.
    apply get_object_or_404_Ok in HP. simpl.
    change (Post.id P) with (Post.id (PostForm_apply f P)).
    rewrite filter_pk_save. simpl. rewrite HP. reflexivity.
  - simpl. apply map_pk_save.
  - simpl. intros Q Hne. split; intro HQ.
    + apply In_save in HQ. destruct HQ as [[HQ _]| ->]; [assumption|].
      simpl in Hne. congruence.
    + apply In_save_other; [assumption|]. simpl. congruence.
Qed.

Lemma post_edit_by_author_keeps_key_and_author_witness :
  exists P' db',
    PostEditView_dispatch Fixture.db
      (Fixture.request (Authenticated Fixture.alice) POST "/posts/2/edit/") 2
      (Valid {| PostForm.title := "t"; PostForm.text := "x";
                PostForm.pub_date := 5%Z; PostForm.location := None;
                PostForm.category := 2; PostForm.image := None |})
    = (HttpResponseRedirect "/posts/2/", db') /\
    Post.author P' = 1 /\ Post.is_published P' = false.
Proof.
  destruct (post_edit_by_author_keeps_key_and_author Fixture.db
              (Fixture.request (Authenticated Fixture.alice) POST "/posts/2/edit/")
              2 Fixture.draft
              {| PostForm.title := "t"; PostForm.text := "x";
                 PostForm.pub_date := 5%Z; PostForm.location := None;
                 PostForm.category := 2; PostForm.image := None |}
              eq_refl eq_refl eq_refl)
    as [P' [db' [Hd [_ [Hkeep _]]]]].
  exists P', db'. split; [exact Hd|].
  injection Hkeep as _ Ha Hp. split; assumption.
Defined.

(** X11.  A post-delete request by a logged-in viewer who is not the
    author of the post is answered Forbidden, whatever the method, and
    the store is left as it was. *)
Theorem post_delete_by_non_author_forbidden db request post_id P u :
  user request = Authenticated u ->
  get_object Post.id (posts db) post_id = Ok P ->
  User.id u <> Post.author P ->
  PostDeleteView_dispatch db request post_id = (HttpResponseForbidden, db).
Proof.
  intros Hu HP Hne.
  unfold PostDeleteView_dispatch, LoginRequiredMixin_dispatch,
    UserPassesTestMixin_dispatch, PostDeleteView_test_func, handle_no_permission.
  rewrite HP, Hu. simpl. apply N.eqb_neq in Hne. now rewrite Hne.
Qed.

Lemma post_delete_by_non_author_forbidden_witness :
  PostDeleteView_dispatch Fixture.db
    (Fixture.request (Authenticated Fixture.bob) POST "/posts/1/delete/") 1
  = (HttpResponseForbidden, Fixture.db).
Proof.
  apply (post_delete_by_non_author_forbidden Fixture.db
           (Fixture.request (Authenticated Fixture.bob) POST "/posts/1/delete/")
           1 Fixture.public_post Fixture.bob eq_refl eq_refl).
  simpl. discriminate.
Defined.

(** What a POST by the author does on the delete route. *)
Lemma post_delete_by_author db request post_id P :
  get_object Post.id (posts db) post_id = Ok P ->
  user_is (user request) (Post.author P) = true ->
  method request = POST ->
  PostDeleteView_dispatch db request post_id
  = (HttpResponseRedirect urls.index,
     {| users := users db; categories := categories db;
        posts := delete Post.id (Post.id P) (posts db);
        comments := filter (fun c => negb (Comment.post c =? Post.id P))
                           (comments db) |}).
Proof.
  intros HP Hv Hm.
  unfold PostDeleteView_dispatch, LoginRequiredMixin_dispatch,
    UserPassesTestMixin_dispatch, PostDeleteView_test_func.
  rewrite HP, Hm. simpl. rewrite Hv.
  destruct (user request); [discriminate|]. reflexivity.
Qed.

(** X12.  A POST by the author on the delete route is answered by a
    redirect to the home page.  Afterwards the post is gone, so its
    detail page is not-found for every viewer; the comments on it are
    gone with it; every other post and every comment on another post is
    still there. *)
Theorem post_delete_by_author_cascades db request post_id P :
  get_object Post.id (posts db) post_id = Ok P ->
  user_is (user request) (Post.author P) = true ->
  method request = POST ->
  exists db',
    PostDeleteView_dispatch db request post_id
    = (HttpResponseRedirect urls.index, db') /\
    (forall viewing now, PostDetailView_get db' viewing post_id now
                         = HttpResponseNotFound) /\
    (forall Q, In Q (posts db') <-> In Q (posts db) /\ Post.id Q <> post_id) /\
    (forall c, In c (comments db') <->
               In c (comments db) /\ Comment.post c <> post_id) /\
    users db' = users db /\
    categories db' = categories db.
Proof.
  intros HP Hv Hm.
  destruct (get_object_pk _ _ _ _ HP) as [_ Hid]. subst post_id.
  eexists. split; [now apply (post_delete_by_author _ _ _ P)|].
  simpl. split; [|split; [|split; [|split; reflexivity]]].
  - intros viewing now. apply post_detail_absent. simpl.
    intros p Hp. now apply In_delete in Hp.
  - intro Q. apply In_delete.
  - intro c. rewrite filter_In, negb_true_iff, N.eqb_neq. reflexivity.
Qed.

Lemma post_delete_by_author_cascades_witness :
  exists db',
    PostDeleteView_dispatch Fixture.db
      (Fixture.request (Authenticated Fixture.alice) POST "/posts/1/delete/") 1
    = (HttpResponseRedirect "/", db') /\
    comments db' = [] /\
    map Post.id (posts db') = [2; 3; 4].
Proof.
  destruct (post_delete_by_author_cascades Fixture.db
              (Fixture.request (Authenticated Fixture.alice) POST "/posts/1/delete/")
              1 Fixture.public_post eq_refl eq_refl eq_refl) as [db' [Hd _]].
  exists db'. split; [exact Hd|].
  vm_compute in Hd. injection Hd as <-. split; reflexivity.
Defined.

(* ===================================================================== *)
(** ** More on comments *)
(* ===================================================================== *)

Lemma length_filter_delete {A} (pk_of : A -> N) (g : A -> bool) pk rows :
  List.length (filter g rows)
  = (List.length (filter g (delete pk_of pk rows))
     + List.length (filter g (filter (fun r => (pk_of r =? pk)%N) rows)))%nat.
Proof.
  unfold delete. induction rows as [|r rows IH]; [reflexivity|].
  simpl. destruct (pk_of r =? pk); simpl; destruct (g r); simpl; lia.
Qed.

Lemma length_filter_save {A} (pk_of : A -> N) (g : A -> bool) obj old rows :
  filter (fun r => pk_of r =? pk_of obj) rows = [old] ->
  g obj = g old ->
  List.length (filter g (save pk_of obj rows)) = List.length (filter g rows).
Proof.
  intros Hf Hg.
  assert (H : forall r, In r rows -> (pk_of r =? pk_of obj) = true -> r = old).
  { intros r Hin He. now apply (filter_singleton_only _ _ _ _ Hf). }
  clear Hf. unfold save. induction rows as [|r rows IH]; [reflexivity|].
  simpl. destruct (pk_of r =? pk_of obj) eqn:E.
  - rewrite (H r (or_introl eq_refl) E), Hg.
    destruct (g old); simpl; rewrite IH; auto; intros; apply H; auto; now right.
  - destruct (g r); simpl; rewrite IH; auto; intros; apply H; auto; now right.
Qed.

(** What a valid comment submission by a logged-in user does. *)
Lemma comment_create_valid db request post_id f now u P :
  user request = Authenticated u ->
  method request = POST ->
  get_object Post.id (posts db) post_id = Ok P ->
  CommentCreateView_dispatch db request post_id (Valid f) now
  = (HttpResponseRedirect
       (urls.post_detail post_id
        ++ "#comment" ++ str (next_id (map Comment.id (comments db)))),
     with_comments db
       (comments db ++
        [{| Comment.id := next_id (map Comment.id (comments db));
            Comment.text := CommentForm.text f;
            Comment.created_at := now;
            Comment.author := User.id u;
            Comment.post := Post.id P |}])).
Proof.
  intros Hu Hm HP.
  unfold CommentCreateView_dispatch, LoginRequiredMixin_dispatch,
    CommentCreateView_form_valid, CommentCreateView_get_success_url.
  rewrite Hu, Hm. cbn [is_authenticated].
  unfold get_object in HP. rewrite HP. reflexivity.
Qed.



(** X14.  A valid edit submitted by the author of a comment changes the
    text of that comment and nothing else: the row keeps its key, its
    creation time, its author and its post, the other comments are
    untouched, no comment count changes, and the post table is as it
    was. *)
Theorem comment_edit_changes_text_only db request post_id comment_id C f :
  get_object Comment.id (comments db) comment_id = Ok C ->
  user_is (user request) (Comment.author C) = true ->
  method request = POST ->
  exists C' db',
    snd (CommentEditView_dispatch db request post_id comment_id (Valid f)) = db' /\
    get_object Comment.id (comments db') comment_id = Ok C' /\
    Comment.text C' = CommentForm.text f /\
    (Comment.id C', Comment.created_at C', Comment.author C', Comment.post C')
    = (Comment.id C, Comment.created_at C, Comment.author C, Comment.post C) /\
    map Comment.id (comments db') = map Comment.id (comments db) /\
    (forall c, Comment.id c <> comment_id ->
               (In c (comments db') <-> In c (comments db))) /\
    (forall Q, comment_count db' Q = comment_count db Q) /\
    posts db' = posts db.
Proof.
  intros HC Hv Hm.
  rewrite (comment_edit_by_author _ _ _ _ _ _ HC Hv Hm).
  destruct (get_object_pk _ _ _ _ HC) as [_ Hid]. subst comment_id.
  set (C' := {| Comment.id := Comment.id C;
                Comment.text := CommentForm.text f;
                Comment.created_at := Comment.created_at C;
                Comment.author := Comment.author C;
                Comment.post := Comment.post C |}).
  assert (Hf : filter (fun r => Comment.id r =? Comment.id C') (comments db) = [C]).
  { now apply get_object_or_404_Ok in HC. }
  exists C'. eexists. split; [reflexivity|]. simpl.
  split; [|split; [reflexivity|]; split; [reflexivity|];
           split; [|split; [|split; [|reflexivity]]]].
  - apply get_object_or_404_Ok.
    change (Comment.id C) with (Comment.id C').
    rewrite filter_pk_save, Hf. reflexivity.
  - apply map_pk_save.
  - intros c Hne. split; intro Hc.
    + apply In_save in Hc. destruct Hc as [[Hc _]| ->]; [assumption|].
      now contradiction Hne.
    + now apply In_save_other.
  - intro Q. unfold comment_count. simpl.
    now apply (length_filter_save Comment.id _ C' C).
Qed.

Lemma comment_edit_changes_text_only_witness :
  exists C',
    get_object Comment.id
      (comments
         (snd (CommentEditView_dispatch Fixture.db
                 (Fixture.request (Authenticated Fixture.bob) POST
                    "/posts/1/edit_comment/1/")
                 1 1 (Valid {| CommentForm.text := "edited" |})))) 1
    = Ok C' /\
    Comment.text C' = "edited"%string /\
    Comment.created_at C' = 80%Z.
Proof.
  destruct (comment_edit_changes_text_only Fixture.db
              (Fixture.request (Authenticated Fixture.bob) POST
                 "/posts/1/edit_comment/1/")
              1 1 Fixture.first_comment {| CommentForm.text := "edited" |}
              eq_refl eq_refl eq_refl)
    as [C' [db' [Hd [Hget [Htext [Hkeep _]]]]]].
  exists C'. rewrite Hd. split; [exact Hget|]. split; [exact Htext|].
  now injection Hkeep.
Defined.

(** X15.  A comment-edit request by a logged-in viewer who is not the
    author of the comment is answered Forbidden, whatever the method and
    the submitted form, and the store is left as it was. *)
Theorem comment_edit_by_non_author_forbidden db request post_id comment_id data C u :
  user request = Authenticated u ->
  get_object Comment.id (comments db) comment_id = Ok C ->
  User.id u <> Comment.author C ->
  CommentEditView_dispatch db request post_id comment_id data
  = (HttpResponseForbidden, db).
Proof.
  intros Hu HC Hne. open_comment_mixins.
  rewrite HC, Hu. simpl. apply N.eqb_neq in Hne. now rewrite Hne.
Qed.

Lemma comment_edit_by_non_author_forbidden_witness :
  CommentEditView_dispatch Fixture.db
    (Fixture.request (Authenticated Fixture.alice) POST "/posts/1/edit_comment/1/")
    1 1 (Valid {| CommentForm.text := "hijacked" |})
  = (HttpResponseForbidden, Fixture.db).
Proof.
  apply (comment_edit_by_non_author_forbidden Fixture.db
           (Fixture.request (Authenticated Fixture.alice) POST
              "/posts/1/edit_comment/1/")
           1 1 _ Fixture.first_comment Fixture.alice eq_refl eq_refl).
  simpl. discriminate.
Defined.

(** X16.  A POST by the author on the comment-delete route removes the
    comment and no other: the comment count of its post drops by one,
    the counts of posts with another key stay, and a second delete
    request for the same [comment_id], by any logged-in viewer, is
    answered not-found. *)
Theorem comment_delete_removes_one db request post_id comment_id C :
  get_object Comment.id (comments db) comment_id = Ok C ->
  user_is (user request) (Comment.author C) = true ->
  method request = POST ->
  exists db',
    snd (CommentDeleteView_dispatch db request post_id comment_id) = db' /\
    (forall c, In c (comments db') <->
               In c (comments db) /\ Comment.id c <> comment_id) /\
    (forall Q, Post.id Q = Comment.post C ->
               comment_count db Q = S (comment_count db' Q)) /\
    (forall Q, Post.id Q <> Comment.post C ->
               comment_count db' Q = comment_count db Q) /\
    (forall again post_id',
        is_authenticated (user again) = true ->
        CommentDeleteView_dispatch db' again post_id' comment_id
        = (HttpResponseNotFound, db')) /\
    posts db' = posts db.
Proof.
  intros HC Hv Hm.
  rewrite (comment_delete_by_author _ _ _ _ _ HC Hv Hm).
  destruct (get_object_pk _ _ _ _ HC) as [_ Hid]. subst comment_id.
  assert (Hf : filter (fun r => Comment.id r =? Comment.id C) (comments db) = [C]).
  { now apply get_object_or_404_Ok in HC. }
  eexists. split; [reflexivity|]. simpl.
  split; [|split; [|split; [|split; [|reflexivity]]]].
  - intro c. apply In_delete.
  - intros Q HQ. unfold comment_count. simpl.
    rewrite (length_filter_delete Comment.id _ (Comment.id C) (comments db)), Hf.
    simpl. rewrite HQ, N.eqb_refl. simpl. lia.
  - intros Q HQ. unfold comment_count. simpl.
    rewrite (length_filter_delete Comment.id _ (Comment.id C) (comments db)), Hf.
    simpl. assert (E : (Comment.post C =? Post.id Q) = false)
      by (apply N.eqb_neq; congruence).
    rewrite E. simpl. lia.
  - intros again post_id' Hauth. open_comment_mixins.
    rewrite Hauth. simpl.
    rewrite get_object_absent; [reflexivity|].
    intros c Hc. now apply In_delete in Hc.
Qed.

Lemma comment_delete_removes_one_witness :
  comments
    (snd (CommentDeleteView_dispatch Fixture.db
            (Fixture.request (Authenticated Fixture.bob) POST
               "/posts/1/delete_comment/1/") 1 1))
  = [Fixture.second_comment] /\
  comment_count Fixture.db Fixture.public_post = 2%nat.
Proof.
  destruct (comment_delete_removes_one Fixture.db
              (Fixture.request (Authenticated Fixture.bob) POST
                 "/posts/1/delete_comment/1/") 1 1 Fixture.first_comment
              eq_refl eq_refl eq_refl) as [db' [Hd _]].
  split; reflexivity.
Defined.

(* ===================================================================== *)
(** ** Editing the profile *)
(* ===================================================================== *)

(** X17.  A valid profile edit by a logged-in user rewrites the first
    name, last name and email of the row with that user's key and
    redirects to that user's profile page.  Key and username stay, user
    rows with another key are untouched, and so are posts and
    comments. *)
Theorem profile_edit_changes_own_names_only db request f u :
  user request = Authenticated u ->
  method request = POST ->
  exists u' db',
    ProfileEditView_dispatch db request (Valid f)
    = (HttpResponseRedirect (urls.profile (User.username u)), db') /\
    (User.id u', User.username u') = (User.id u, User.username u) /\
    (User.first_name u', User.last_name u', User.email u')
    = (UserProfileForm.first_name f, UserProfileForm.last_name f,
       UserProfileForm.email f) /\
    map User.id (users db') = map User.id (users db) /\
    (forall v, In v (users db') -> v = u' \/ (In v (users db) /\ User.id v <> User.id u)) /\
    (forall v, In v (users db) -> User.id v <> User.id u -> In v (users db')) /\
    (In u (users db) -> In u' (users db')) /\
    posts db' = posts db /\
    comments db' = comments db.
Proof.
  intros Hu Hm.
  exists (UserProfileForm_apply f u),
         (with_users db (save User.id (UserProfileForm_apply f u) (users db))).
  split; [|split; [reflexivity|]; split; [reflexivity|];
           split; [|split; [|split; [|split; [|split; reflexivity]]]]].
  - unfold ProfileEditView_dispatch, LoginRequiredMixin_dispatch.
    rewrite Hu, Hm. reflexivity.
  - simpl. apply map_pk_save.
  - simpl. intros v Hv. apply In_save in Hv. tauto.
  - simpl. intros v Hv Hne. now apply In_save_other.
  - simpl. intro Hin. now apply (In_save_self User.id _ _ u).
Qed.

Lemma profile_edit_changes_own_names_only_witness :
  exists u' db',
    ProfileEditView_dispatch Fixture.db
      (Fixture.request (Authenticated Fixture.bob) POST "/edit_profile/")
      (Valid {| UserProfileForm.first_name := "Robert";
                UserProfileForm.last_name := "B";
                UserProfileForm.email := "rob@example.org" |})
    = (HttpResponseRedirect "/profile/bob/", db') /\
    User.username u' = "bob"%string /\
    In Fixture.alice (users db').
Proof.
  destruct (profile_edit_changes_own_names_only Fixture.db
              (Fixture.request (Authenticated Fixture.bob) POST "/edit_profile/")
              {| UserProfileForm.first_name := "Robert";
                 UserProfileForm.last_name := "B";
                 UserProfileForm.email := "rob@example.org" |}
              Fixture.bob eq_refl eq_refl)
    as [u' [db' [Hd [Hkeep [_ [_ [_ [Hother _]]]]]]]].
  exists u', db'. split; [exact Hd|]. split.
  - now injection Hkeep.
  - apply Hother; [simpl; now left | simpl; discriminate].
Defined.

(* ===================================================================== *)
(** ** What a request cannot do *)
(* ===================================================================== *)

(** Splits on every test a dispatch makes. *)
Ltac split_dispatch :=
  repeat match goal with
         | |- context [match ?x with _ => _ end] => destruct x eqn:?
         end.

Ltac open_dispatch :=
  unfold PostCreateView_dispatch, PostEditView_dispatch, PostDeleteView_dispatch,
    CommentCreateView_dispatch, CommentEditView_dispatch,
    CommentDeleteView_dispatch, ProfileEditView_dispatch,
    LoginRequiredMixin_dispatch, UserPassesTestMixin_dispatch.

(** X18.  A GET request to a login-required route never changes the
    store, whoever sends it and whatever the keyword arguments are. *)
Theorem get_request_leaves_store dflt db now request route :
  method request = GET ->
  snd (resolve dflt db now request route) = db.
Proof.
  intro Hm. destruct route; simpl; open_dispatch; rewrite ?Hm;
    split_dispatch; reflexivity.
Qed.

Lemma get_request_leaves_store_witness :
  snd (resolve true Fixture.db Fixture.now
         (Fixture.request (Authenticated Fixture.alice) GET "/posts/1/delete/")
         (post_delete 1))
  = Fixture.db.
Proof.
  apply get_request_leaves_store. reflexivity.
Defined.

(** X19.  A submission that does not validate never changes the store,
    on any of the five routes that take a form. *)
Theorem invalid_submission_leaves_store dflt db now request route :
  submission_invalid route = true ->
  snd (resolve dflt db now request route) = db.
Proof.
  intro Hinv. destruct route as [[]|? []| |? []|? ? []| |[]]; try discriminate;
    simpl; open_dispatch; split_dispatch; reflexivity.
Qed.

Lemma invalid_submission_leaves_store_witness :
  snd (resolve true Fixture.db Fixture.now
         (Fixture.request (Authenticated Fixture.alice) POST "/posts/1/edit/")
         (post_edit 1 Invalid))
  = Fixture.db.
Proof.
  apply invalid_submission_leaves_store. reflexivity.
Defined.

(** A lookup by key fails with [Http404] or, when several rows carry
    the key, with [MultipleObjectsReturned]. *)
Lemma get_object_raises {A} (pk_of : A -> N) rows pk e :
  get_object pk_of rows pk = Raise e ->
  e = Http404 \/ e = MultipleObjectsReturned.
Proof.
  unfold get_object, get_object_or_404, get.
  destruct (filter _ rows) as [|x [|y l]]; intro H; inversion H; auto.
Qed.

(** X20.  An anonymous request to a login-required route never changes
    the store and is never answered with status 200, whatever the method
    and the submitted data: the answer is a redirect to the login page,
    or, on the post-edit route, a redirect to the detail page of the
    post or the error page for a post that is not found. *)
Theorem anonymous_request_leaves_store dflt db now request route :
  user request = AnonymousUser ->
  snd (resolve dflt db now request route) = db /\
  status_code (fst (resolve dflt db now request route)) <> 200 /\
  match route with
  | post_edit post_id _ =>
      fst (resolve dflt db now request route)
      = HttpResponseRedirect (urls.post_detail post_id) \/
      fst (resolve dflt db now request route) = HttpResponseNotFound \/
      fst (resolve dflt db now request route) = HttpResponseServerError
  | _ => fst (resolve dflt db now request route) = RedirectToLogin (path request)
  end.
Proof.
  intro Hanon. destruct route; simpl; open_dispatch;
    unfold PostEditView_get_object, handle_no_permission; rewrite ?Hanon; simpl;
    try (split; [reflexivity|]; split; [discriminate | reflexivity]).
  destruct (get_object Post.id (posts db) post_id) as [P|e] eqn:Hget; simpl.
  - split; [reflexivity|]. split; [discriminate | now left].
  - apply get_object_raises in Hget.
    destruct Hget as [-> | ->]; simpl;
      (split; [reflexivity|]); (split; [discriminate|]); auto.
Qed.

Lemma anonymous_request_leaves_store_witness :
  snd (resolve true Fixture.db Fixture.now
         (Fixture.request AnonymousUser POST "/posts/1/edit/")
         (post_edit 1 (Valid {| PostForm.title := "x"; PostForm.text := "y";
                                PostForm.pub_date := 0%Z; PostForm.location := None;
                                PostForm.category := 1; PostForm.image := None |})))
  = Fixture.db.
Proof.
  apply anonymous_request_leaves_store. reflexivity.
Defined.

(** X21.  On the four routes that edit or delete an existing post or
    comment, the store changes only when the viewer is the author of the
    post or comment the route names. *)
Theorem only_the_author_changes_the_store dflt db now request route :
  edits_existing route = true ->
  snd (resolve dflt db now request route) <> db ->
  exists a,
    owner_of db route = Some a /\
    user_is (user request) a = true.
Proof.
  intros Hroute H.
  destruct route; try discriminate; simpl in *.
  - unfold PostEditView_dispatch, PostEditView_get_object in H.
    destruct (get_object Post.id (posts db) post_id) as [P|e]; simpl in H;
      [|now contradiction H].
    exists (Post.author P). split; [reflexivity|].
    destruct (user_is (user request) (Post.author P)); simpl in H;
      [reflexivity | now contradiction H].
  - unfold PostDeleteView_dispatch, LoginRequiredMixin_dispatch,
      UserPassesTestMixin_dispatch, PostDeleteView_test_func in H.
    destruct (is_authenticated (user request)); [|now contradiction H].
    destruct (get_object Post.id (posts db) post_id) as [P|e]; simpl in H;
      [|now contradiction H].
    exists (Post.author P). split; [reflexivity|].
    destruct (user_is (user request) (Post.author P)); simpl in H;
      [reflexivity | now contradiction H].
  - unfold CommentEditView_dispatch, LoginRequiredMixin_dispatch,
      UserPassesTestMixin_dispatch, Comment_test_func in H.
    destruct (is_authenticated (user request)); [|now contradiction H].
    destruct (get_object Comment.id (comments db) comment_id) as [C|e]; simpl in H;
      [|now contradiction H].
    exists (Comment.author C). split; [reflexivity|].
    destruct (user_is (user request) (Comment.author C)); simpl in H;
      [reflexivity | now contradiction H].
  - unfold CommentDeleteView_dispatch, LoginRequiredMixin_dispatch,
      UserPassesTestMixin_dispatch, Comment_test_func in H.
    destruct (is_authenticated (user request)); [|now contradiction H].
    destruct (get_object Comment.id (comments db) comment_id) as [C|e]; simpl in H;
      [|now contradiction H].
    exists (Comment.author C). split; [reflexivity|].
    destruct (user_is (user request) (Comment.author C)); simpl in H;
      [reflexivity | now contradiction H].
Qed.

Lemma only_the_author_changes_the_store_witness :
  exists a,
    owner_of Fixture.db (comment_delete 1 1) = Some a /\
    user_is (Authenticated Fixture.bob) a = true.
Proof.
  destruct (only_the_author_changes_the_store true Fixture.db Fixture.now
              (Fixture.request (Authenticated Fixture.bob) POST
                 "/posts/1/delete_comment/1/")
              (comment_delete 1 1) eq_refl) as [a [Ho Hu]].
  - vm_compute. discriminate.
  - exists a. split; assumption.
Defined.

(* ===================================================================== *)
(** ** Invariants of the store *)
(* ===================================================================== *)

(** Every login-required route makes one of the writes of [Write]. *)
Lemma resolve_writes dflt db now request route :
  Write db (snd (resolve dflt db now request route)).
Proof.
  destruct route; simpl.
  - unfold PostCreateView_dispatch, LoginRequiredMixin_dispatch.
    destruct (is_authenticated (user request)); [|constructor].
    destruct (method request); [constructor|].
    destruct (user request); [constructor|].
    destruct data; [|constructor]. simpl. now apply write_new_post.
  - unfold PostEditView_dispatch, PostEditView_get_object.
    destruct (get_object Post.id (posts db) post_id) as [P|e] eqn:HP; [|constructor].
    simpl. destruct (negb (user_is (user request) (Post.author P))); [constructor|].
    unfold LoginRequiredMixin_dispatch.
    destruct (is_authenticated (user request)); [|constructor].
    destruct (method request); [constructor|].
    destruct data; [|constructor]. simpl.
    apply write_post. now apply get_object_pk in HP.
  - unfold PostDeleteView_dispatch, LoginRequiredMixin_dispatch,
      UserPassesTestMixin_dispatch, PostDeleteView_test_func.
    destruct (is_authenticated (user request)); [|constructor].
    destruct (get_object Post.id (posts db) post_id) as [P|e]; [|constructor].
    simpl. destruct (user_is (user request) (Post.author P)); [|constructor].
    destruct (method request); [constructor|]. simpl. apply write_delete_post.
  - unfold CommentCreateView_dispatch, LoginRequiredMixin_dispatch,
      CommentCreateView_form_valid.
    destruct (is_authenticated (user request)); [|constructor].
    destruct (method request); [constructor|].
    destruct (user request); [constructor|].
    destruct data; [|constructor].
    destruct (get_object_or_404 (posts db) _) as [P|e] eqn:HP; [|constructor].
    simpl. apply (write_new_comment _ _ P); try reflexivity.
    now apply get_object_or_404_Ok, filter_singleton_In in HP.
  - unfold CommentEditView_dispatch, LoginRequiredMixin_dispatch,
      UserPassesTestMixin_dispatch, Comment_test_func.
    destruct (is_authenticated (user request)); [|constructor].
    destruct (get_object Comment.id (comments db) comment_id) as [C|e] eqn:HC;
      [|constructor].
    simpl. destruct (user_is (user request) (Comment.author C)); [|constructor].
    destruct (method request); [constructor|].
    destruct data; [|constructor]. simpl.
    apply (write_comment _ C); try reflexivity. now apply get_object_pk in HC.
  - unfold CommentDeleteView_dispatch, LoginRequiredMixin_dispatch,
      UserPassesTestMixin_dispatch, Comment_test_func.
    destruct (is_authenticated (user request)); [|constructor].
    destruct (get_object Comment.id (comments db) comment_id) as [C|e]; [|constructor].
    simpl. destruct (user_is (user request) (Comment.author C)); [|constructor].
    destruct (method request); [constructor|]. simpl. apply write_delete_comment.
  - unfold ProfileEditView_dispatch, LoginRequiredMixin_dispatch.
    destruct (is_authenticated (user request)); [|constructor].
    destruct (user request); [constructor|].
    destruct (method request); [constructor|].
    destruct data; [|constructor]. simpl. apply write_user.
Qed.

Lemma Write_unique_keys db db' :
  Write db db' -> unique_keys db -> unique_keys db'.
Proof.
  unfold unique_keys.
  intros [ |p Hp|P f HP|P|c P HP Hc Hid|C C' HC Hid Hpost|k|u'] [Hu [Hps Hcs]];
    simpl; repeat split; auto.
  - apply NoDup_map_app_fresh; [assumption|]. rewrite Hp. apply next_id_fresh.
  - now rewrite map_pk_save.
  - unfold delete. now apply NoDup_map_filter.
  - now apply NoDup_map_filter.
  - apply NoDup_map_app_fresh; [assumption|]. rewrite Hid. apply next_id_fresh.
  - now rewrite map_pk_save.
  - unfold delete. now apply NoDup_map_filter.
  - now rewrite map_pk_save.
Qed.

Lemma Write_comments_reference_posts db db' :
  Write db db' -> comments_reference_posts db -> comments_reference_posts db'.
Proof.
  unfold comments_reference_posts.
  intros [ |p Hp|P f HP|P|c P HP Hc Hid|C C' HC Hid Hpost|k|u'] Hfk; simpl; auto.
  - intros c Hc. destruct (Hfk c Hc) as [q [Hq Hid]].
    exists q. split; [apply in_or_app; now left | assumption].
  - intros c Hc. destruct (Hfk c Hc) as [q [Hq Hid]].
    destruct (N.eq_dec (Post.id q) (Post.id P)) as [E|E].
    + exists (PostForm_apply f P). split.
      * now apply (In_save_self Post.id _ _ q).
      * simpl. congruence.
    + exists q. split; [now apply In_save_other | assumption].
  - intros c Hc. apply filter_In in Hc. destruct Hc as [Hc Hne].
    rewrite negb_true_iff, N.eqb_neq in Hne.
    destruct (Hfk c Hc) as [q [Hq Hid]].
    exists q. split; [apply In_delete; split; [assumption | congruence] | assumption].
  - intros c' Hc'. apply in_app_or in Hc'. destruct Hc' as [Hc'|[<-|[]]].
    + now apply Hfk.
    + exists P. split; [assumption | now symmetry].
  - intros c Hc. apply In_save in Hc. destruct Hc as [[Hc _]| ->].
    + now apply Hfk.
    + rewrite Hpost. now apply Hfk.
  - intros c Hc. apply In_delete in Hc. apply Hfk. tauto.
Qed.

(** X22.  Unique primary keys in the user, post and comment tables are
    kept by every request to a login-required route, and so by every run
    of such requests. *)
Theorem unique_keys_kept dflt db requests :
  unique_keys db -> unique_keys (serve_all dflt db requests).
Proof.
  unfold serve_all. revert db.
  induction requests as [|[[now request] route] requests IH]; intros db H;
    [exact H|].
  simpl. apply IH. apply (Write_unique_keys db); [apply resolve_writes | exact H].
Qed.

Lemma fixture_unique_keys : unique_keys Fixture.db.
Proof.
  repeat split; repeat constructor; simpl; intuition discriminate.
Defined.

Lemma unique_keys_kept_witness :
  unique_keys
    (serve_all true Fixture.db
       [(Fixture.now,
         Fixture.request (Authenticated Fixture.bob) POST "/posts/1/comment/",
         comment_create 1 (Valid {| CommentForm.text := "third" |}));
        (Fixture.now,
         Fixture.request (Authenticated Fixture.alice) POST "/posts/1/delete/",
         post_delete 1)]).
Proof.
  apply unique_keys_kept. exact fixture_unique_keys.
Defined.

(** X23.  If every stored comment is on a stored post, this is still so
    after every request to a login-required route, and so after every
    run of such requests: a comment is only created on a post that was
    found, and deleting a post deletes its comments. *)
Theorem comments_reference_posts_kept dflt db requests :
  comments_reference_posts db ->
  comments_reference_posts (serve_all dflt db requests).
Proof.
  unfold serve_all. revert db.
  induction requests as [|[[now request] route] requests IH]; intros db H;
    [exact H|].
  simpl. apply IH.
  apply (Write_comments_reference_posts db); [apply resolve_writes | exact H].
Qed.

Lemma fixture_comments_reference_posts : comments_reference_posts Fixture.db.
Proof.
  intros c [<-|[<-|[]]]; exists Fixture.public_post; (split; [now left | reflexivity]).
Defined.

Lemma comments_reference_posts_kept_witness :
  comments_reference_posts
    (serve_all true Fixture.db
       [(Fixture.now,
         Fixture.request (Authenticated Fixture.alice) POST "/posts/1/delete/",
         post_delete 1)]).
Proof.
  apply comments_reference_posts_kept. exact fixture_comments_reference_posts.
Defined.

(* ===================================================================== *)
(** ** Registration and error pages *)
(* ===================================================================== *)

(** X24.  A valid registration, by any viewer, logged in or not, adds
    one user with a fresh key and the submitted username and redirects
    to the home page; when the username was free, the profile page of
    the new user is found from then on.  Posts and comments are
    untouched. *)
Theorem registered_user_has_profile db request f viewing now :
  method request = POST ->
  (forall v, In v (users db) -> User.username v <> UserCreationForm.username f) ->
  exists u db',
    registration_dispatch db request (Valid f)
    = (HttpResponseRedirect urls.index, db') /\
    users db' = users db ++ [u] /\
    User.username u = UserCreationForm.username f /\
    ~ In (User.id u) (map User.id (users db)) /\
    (exists listing,
        ProfileView_get_queryset db' viewing (UserCreationForm.username f) now
        = Ok (u, listing)) /\
    posts db' = posts db /\
    comments db' = comments db.
Proof.
  intros Hm Hfree.
  set (u := {| User.id := next_id (map User.id (users db));
               User.username := UserCreationForm.username f;
               User.first_name := ""; User.last_name := ""; User.email := "" |}).
  assert (Hget : get_object_or_404 (users db ++ [u])
                   (fun v => String.eqb (User.username v) (UserCreationForm.username f))
                 = Ok u).
  { apply get_object_or_404_Ok. rewrite filter_app, filter_none.
    - simpl. now rewrite String.eqb_refl.
    - intros v Hv. apply String.eqb_neq. now apply Hfree. }
  exists u, (with_users db (users db ++ [u])).
  split; [unfold registration_dispatch; now rewrite Hm|].
  split; [reflexivity|]. split; [reflexivity|].
  split; [apply next_id_fresh|].
  split; [|split; reflexivity].
  unfold ProfileView_get_queryset. simpl. rewrite Hget. simpl.
  destruct (user_is (user viewing) (next_id (map User.id (users db))));
    eexists; reflexivity.
Qed.

Lemma registered_user_has_profile_witness :
  exists u db',
    registration_dispatch Fixture.db
      (Fixture.request AnonymousUser POST "/auth/registration/")
      (Valid {| UserCreationForm.username := "carol" |})
    = (HttpResponseRedirect "/", db') /\
    users db' = users Fixture.db ++ [u] /\
    User.username u = "carol"%string.
Proof.
  destruct (registered_user_has_profile Fixture.db
              (Fixture.request AnonymousUser POST "/auth/registration/")
              {| UserCreationForm.username := "carol" |}
              (Fixture.request AnonymousUser GET "/profile/carol/") Fixture.now
              eq_refl) as [u [db' [Hd [Hus [Hname _]]]]].
  - intros v [<-|[<-|[]]]; discriminate.
  - exists u, db'. repeat split; assumption.
Defined.

(** X25.  Whatever exception a view raises, the response at the request
    boundary has an error page, the page is the one the handler named in
    [blogicum/urls.py] renders for that exception, and its status is the
    status of the response; a refusal by the access mixins is shown with
    the template of [csrf_failure]. *)
Theorem error_page_matches_status {C} request (e : Exception) :
  error_page request (@respond C (Raise e)) = Some (handle_uncaught request e) /\
  pages.status (handle_uncaught request e)
  = status_code (@respond C (Raise e)) /\
  (400 <= pages.status (handle_uncaught request e)) /\
  (@respond C (Raise e) = HttpResponseForbidden ->
   pages.template (handle_uncaught request e) = "pages/403csrf.html"%string).
Proof.
  destruct e; simpl; repeat split; try discriminate; intros; discriminate.
Qed.

(* ===================================================================== *)
(** ** Commenting and visibility; the two anchors *)
(* ===================================================================== *)

(** X26.  Creating a comment looks the post up by key only.  On a post
    that is not published and whose detail page is not-found for the
    viewer, a valid comment submission by that viewer is still saved on
    the post. *)
Theorem comment_create_ignores_visibility db request post_id f now u P :
  user request = Authenticated u ->
  method request = POST ->
  get_object Post.id (posts db) post_id = Ok P ->
  Post.is_published P = false ->
  User.id u <> Post.author P ->
  PostDetailView_get db request post_id now = HttpResponseNotFound /\
  exists c,
    CommentCreateView_dispatch db request post_id (Valid f) now
    = (HttpResponseRedirect
         (urls.post_detail post_id ++ "#comment" ++ str (Comment.id c)),
       with_comments db (comments db ++ [c])) /\
    Comment.post c = Post.id P /\
    Comment.author c = User.id u.
Proof.
  intros Hu Hm HP Hdraft Hne. split.
  - unfold PostDetailView_get, PostDetailView_get_object.
    rewrite HP. simpl. rewrite Hdraft, Hu. simpl.
    apply N.eqb_neq in Hne. now rewrite Hne.
  - exists {| Comment.id := next_id (map Comment.id (comments db));
              Comment.text := CommentForm.text f;
              Comment.created_at := now;
              Comment.author := User.id u;
              Comment.post := Post.id P |}.
    split; [now apply comment_create_valid|]. split; reflexivity.
Qed.

Lemma comment_create_ignores_visibility_witness :
  PostDetailView_get Fixture.db
    (Fixture.request (Authenticated Fixture.bob) POST "/posts/2/comment/")
    2 Fixture.now
  = HttpResponseNotFound /\
  exists c,
    comments
      (snd (CommentCreateView_dispatch Fixture.db
              (Fixture.request (Authenticated Fixture.bob) POST "/posts/2/comment/")
              2 (Valid {| CommentForm.text := "seen" |}) Fixture.now))
    = comments Fixture.db ++ [c] /\
    Comment.post c = 2.
Proof.
  destruct (comment_create_ignores_visibility Fixture.db
              (Fixture.request (Authenticated Fixture.bob) POST "/posts/2/comment/")
              2 {| CommentForm.text := "seen" |} Fixture.now
              Fixture.bob Fixture.draft eq_refl eq_refl eq_refl eq_refl)
    as [Hdetail [c [Hd [Hpost _]]]].
  - simpl. discriminate.
  - split; [exact Hdetail|]. exists c. rewrite Hd. split; [reflexivity | exact Hpost].
Defined.

Lemma string_not_longer (s : string) (c : ascii) : s <> String c s.
Proof.
  intro H. apply (f_equal String.length) in H. simpl in H. lia.
Qed.

(** X27.  The redirect after creating a comment and the redirect after
    editing the same comment carry different fragments: [comment<id>]
    and [comment_<id>]. *)
Theorem create_and_edit_anchors_differ post_id (c : Comment.t) :
  url_fragment (CommentCreateView_get_success_url post_id c)
  = Some ("comment" ++ str (Comment.id c))%string /\
  url_fragment (CommentEditView_get_success_url c)
  = Some ("comment_" ++ str (Comment.id c))%string /\
  url_fragment (CommentCreateView_get_success_url post_id c)
  <> url_fragment (CommentEditView_get_success_url c).
Proof.
  assert (H1 : url_fragment (CommentCreateView_get_success_url post_id c)
               = Some ("comment" ++ str (Comment.id c))%string).
  { unfold CommentCreateView_get_success_url.
    apply (url_fragment_app_no_hash _ ("comment" ++ _)), url_fragment_post_detail. }
  assert (H2 : url_fragment (CommentEditView_get_success_url c)
               = Some ("comment_" ++ str (Comment.id c))%string).
  { unfold CommentEditView_get_success_url.
    apply (url_fragment_app_no_hash _ ("comment_" ++ _)), url_fragment_post_detail. }
  split; [exact H1|]. split; [exact H2|].
  rewrite H1, H2. simpl. intro H. injection H as H.
  now apply string_not_longer in H.
Qed.
